(** * Resume / job-description matcher: the scoring core of [resume_parser.py]

    A shallow embedding of [preprocess_text], [ResumeParser.extract_skills],
    [score_resume_by_skills], [score_resume_by_text_similarity] and
    [calculate_final_resume_score], and the properties of the scoring
    contract proved (or refuted) on it.

    Conventions of the model.
    - A Python [str] is a [string]; its characters are the code points
      U+0000..U+00FF, classified as CPython classifies them for [str]
      patterns ([\w], [\s], [str.lower], [str.strip], [str.isdigit]).
    - A Python [float] is a binary64 [float]; [round(x, 2)] is [round2].
      A NumPy [float64] scalar holds a binary64 value as well, but it
      stays a NumPy scalar in arithmetic and rounds as NumPy does
      ([np_round2]); a [number] tells the two apart.
    - A Python [set] of strings is a [gset string]; a [list] is a [list].
    - A call that can raise returns a [result]; [try ... except Exception]
      is [try_except].
    - The TF-IDF vectoriser and the cosine similarity of scikit-learn are
      not part of the repository: they are a parameter of the model. *)

From Stdlib Require Import ZArith NArith Ascii String List Bool Lia.
From Stdlib Require Import PrimFloat FloatOps SpecFloat Uint63.
From stdpp Require Import base decidable option list sets gmap strings sorting.

Local Open Scope string_scope.

(* Decimal literals such as [14.37] stand for the nearest double, as in
   Python. *)
Set Warnings "-inexact-float".

(** ** Characters *)

Module Char.

Definition code (c : ascii) : N := N_of_ascii c.

Definition between (lo hi : N) (c : ascii) : bool :=
  ((lo <=? code c) && (code c <=? hi))%N.

Definition is_code (n : N) (c : ascii) : bool := (code c =? n)%N.

(** [[A-Za-z]] *)
Definition is_ascii_letter (c : ascii) : bool :=
  between 65 90 c || between 97 122 c.

(** [\w] of a [str] pattern: alphanumeric code points and the underscore. *)
Definition is_word (c : ascii) : bool :=
  between 48 57 c || between 65 90 c || is_code 95 c || between 97 122 c
  || is_code 170 c || between 178 179 c || is_code 181 c || between 185 186 c
  || between 188 190 c || between 192 214 c || between 216 246 c
  || between 248 255 c.

(** [\s] of a [str] pattern, which is also what [str.strip()] removes. *)
Definition is_space (c : ascii) : bool :=
  between 9 13 c || between 28 32 c || is_code 133 c || is_code 160 c.

(** One character of [str.isdigit]. *)
Definition is_digit (c : ascii) : bool :=
  between 48 57 c || between 178 179 c || is_code 185 c.

(** One character of [str.lower]. *)
Definition lower (c : ascii) : ascii :=
  if between 65 90 c || between 192 214 c || between 216 222 c
  then ascii_of_N (code c + 32)
  else c.

(** [[\n\t\r]] *)
Definition is_line_break (c : ascii) : bool := is_code 10 c || is_code 9 c || is_code 13 c.

(** [[^\w\s\.\-]] *)
Definition is_punctuation (c : ascii) : bool :=
  negb (is_word c || is_space c || is_code 46 c || is_code 45 c).

(** [[\w\+\#\.\-]] *)
Definition is_tech (c : ascii) : bool :=
  is_word c || is_code 43 c || is_code 35 c || is_code 46 c || is_code 45 c.

End Char.

(** ** Strings *)

Module Str.

Fixpoint map (f : ascii -> ascii) (s : string) : string :=
  match s with
  | "" => ""
  | String c s' => String (f c) (map f s')
  end.

Fixpoint forallb (p : ascii -> bool) (s : string) : bool :=
  match s with
  | "" => true
  | String c s' => p c && forallb p s'
  end.

Definition is_empty (s : string) : bool :=
  match s with "" => true | _ => false end.

(** [s.lower()] *)
Definition lower (s : string) : string := map Char.lower s.

(** [s.isdigit()]: every character is a digit and there is at least one. *)
Definition isdigit (s : string) : bool := negb (is_empty s) && forallb Char.is_digit s.

Fixpoint lstrip (s : string) : string :=
  match s with
  | "" => ""
  | String c s' => if Char.is_space c then lstrip s' else s
  end.

Fixpoint rstrip (s : string) : string :=
  match s with
  | "" => ""
  | String c s' =>
      let r := rstrip s' in
      if Char.is_space c && is_empty r then "" else String c r
  end.

(** [s.strip()] *)
Definition strip (s : string) : string := rstrip (lstrip s).

(** The last character of [s], or [prev] when [s] is empty. *)
Fixpoint last (prev : option ascii) (s : string) : option ascii :=
  match s with
  | "" => prev
  | String c s' => last (Some c) s'
  end.

Definition head (s : string) : option ascii :=
  match s with "" => None | String c _ => Some c end.

(** [s] starts with [p]: what follows [p]. *)
Fixpoint strip_prefix (p s : string) : option string :=
  match p, s with
  | "", _ => Some s
  | String a p', String b s' => if Ascii.eqb a b then strip_prefix p' s' else None
  | String _ _, "" => None
  end.

End Str.

(** ** Regular-expression substitutions of [preprocess_text] *)

(** [re.sub(r'[...]', ' ', s)] for a one-character class. *)
Definition sub_class (hit : ascii -> bool) (s : string) : string :=
  Str.map (fun c => if hit c then " "%char else c) s.

(** [re.sub(r'\s+', ' ', s)]: [in_run] tells that the previous character
    belonged to the run of whitespace being replaced. *)
Fixpoint sub_space_runs (in_run : bool) (s : string) : string :=
  match s with
  | "" => ""
  | String c s' =>
      if Char.is_space c
      then (if in_run then sub_space_runs true s'
            else String " " (sub_space_runs true s'))
      else String c (sub_space_runs false s')
  end.

Definition preprocess_text (text : string) : string :=
  if Str.is_empty text then ""
  else
    let text := sub_class Char.is_line_break text in
    let text := sub_space_runs false text in
    let text := sub_class Char.is_punctuation text in
    Str.strip text.

(** ** The two regular expressions of the skill code *)

Module Re.

Definition word_char (c : option ascii) : bool :=
  match c with Some c => Char.is_word c | None => false end.

(** [\b] between the character [prev] (if any) and the text [rest]:
    exactly one side is a word character. *)
Definition at_boundary (prev : option ascii) (rest : string) : bool :=
  xorb (word_char prev) (word_char (Str.head rest)).

(** [r'\b' + re.escape(p) + r'\b'] matched at the start of [s], the
    character before [s] being [prev]. *)
Definition match_word_at (prev : option ascii) (p s : string) : bool :=
  at_boundary prev s &&
  match Str.strip_prefix p s with
  | Some rest => at_boundary (Str.last prev p) rest
  | None => false
  end.

Fixpoint search_word_from (prev : option ascii) (p s : string) : bool :=
  match_word_at prev p s ||
  match s with
  | "" => false
  | String c s' => search_word_from (Some c) p s'
  end.

(** [re.search(r'\b' + re.escape(p) + r'\b', s)] is not [None]. *)
Definition search_word (p s : string) : bool := search_word_from None p s.

(** [[\w\+\#\.\-]{2,}\b] after [n] characters of the repetition have been
    taken, the last one being [prev]: the longest continuation first,
    shorter ones on backtracking. *)
Fixpoint tech_tail (prev : ascii) (n : nat) (s : string) : option string :=
  let stop :=
    if (2 <=? n)%nat && at_boundary (Some prev) s then Some "" else None in
  match s with
  | "" => stop
  | String c s' =>
      if Char.is_tech c
      then match tech_tail c (S n) s' with
           | Some t => Some (String c t)
           | None => stop
           end
      else stop
  end.

(** [r'\b[A-Za-z][\w\+\#\.\-]{2,}\b'] matched at the start of [s]. *)
Definition tech_match_at (prev : option ascii) (s : string) : option string :=
  match s with
  | "" => None
  | String c s' =>
      if at_boundary prev s && Char.is_ascii_letter c
      then String c <$> tech_tail c 0 s'
      else None
  end.

(** [re.findall]: matches from left to right, the scan resuming after
    each match; [skip] counts the characters of the last match that are
    still ahead. *)
Fixpoint findall_tech_from (prev : option ascii) (skip : nat) (s : string)
  : list string :=
  match s with
  | "" => []
  | String c s' =>
      match skip with
      | S k => findall_tech_from (Some c) k s'
      | O =>
          match tech_match_at prev s with
          | Some tok => tok :: findall_tech_from (Some c) (String.length tok - 1) s'
          | None => findall_tech_from (Some c) 0 s'
          end
      end
  end.

(** [re.findall(r'\b[A-Za-z][\w\+\#\.\-]{2,}\b', s)] *)
Definition findall_tech (s : string) : list string := findall_tech_from None 0 s.

End Re.

(** ** Floating-point numbers *)

Module Float.

(** [float(n)] for a length [n]; lengths are below [2^53], where the
    conversion is exact. *)
Definition of_nat (n : nat) : float :=
  PrimFloat.of_uint63 (Uint63.of_Z (Z.of_nat n)).

(** The integer nearest to [n / d], ties going to the even one
    ([0 <= n], [0 < d]). *)
Definition round_half_even (n d : Z) : Z :=
  let q := (n / d)%Z in
  match (2 * (n mod d) ?= d)%Z with
  | Lt => q
  | Gt => (q + 1)%Z
  | Eq => if Z.even q then q else (q + 1)%Z
  end.

(** [round(x, 2)] of CPython: the exact value of [x] is rounded to two
    decimals, ties to even, and the double nearest to that decimal is
    returned; NaN, the infinities and the zeros round to themselves.
    [x] is [m * 2^e] with [m] of 53 bits (fewer for subnormals).  From
    [e = -6] on, [x] is an integer or its neighbouring doubles are [1/64]
    or more away, farther than twice the [0.005] by which rounding can move
    it, so [x] itself is the nearest double.  Below, the [k < 2^53]
    hundredths convert exactly and the division by [100] rounds once. *)
Definition round2 (x : float) : float :=
  match Prim2SF x with
  | S754_finite s m e =>
      if (-6 <=? e)%Z then x
      else
        let k := round_half_even (Z.pos m * 100) (2 ^ (- e)) in
        let r := (PrimFloat.of_uint63 (Uint63.of_Z k) / 100)%float in
        if s then (- r)%float else r
  | _ => x
  end.

(** [rint(x)]: the integer nearest to [x], ties going to the even one,
    with the sign of [x]; an [x] whose exponent is not negative is an
    integer already. *)
Definition rint (x : float) : float :=
  match Prim2SF x with
  | S754_finite s m e =>
      if (0 <=? e)%Z then x
      else
        let k := round_half_even (Z.pos m) (2 ^ (- e)) in
        let r := PrimFloat.of_uint63 (Uint63.of_Z k) in
        if s then (- r)%float else r
  | _ => x
  end.

(** [round(x, 2)] of a NumPy [float64] scalar: NumPy multiplies by [100.0],
    takes [rint] and divides by [100.0], each in double precision. *)
Definition np_round2 (x : float) : float := (rint (x * 100) / 100)%float.

End Float.

(** ** Python floats and NumPy scalars *)

Inductive number : Type :=
  | PyFloat (x : float)
  | NpFloat64 (x : float).

Definition number_value (n : number) : float :=
  match n with PyFloat x => x | NpFloat64 x => x end.

(** An arithmetic operation on two numbers: the result is a NumPy scalar
    as soon as one operand is. *)
Definition number_op (op : float -> float -> float) (a b : number) : number :=
  match a, b with
  | PyFloat x, PyFloat y => PyFloat (op x y)
  | _, _ => NpFloat64 (op (number_value a) (number_value b))
  end.

Definition number_mul : number -> number -> number := number_op PrimFloat.mul.
Definition number_add : number -> number -> number := number_op PrimFloat.add.

(** [round(n, 2)]: the built-in [round] calls the [__round__] of its
    argument. *)
Definition number_round2 (n : number) : number :=
  match n with
  | PyFloat x => PyFloat (Float.round2 x)
  | NpFloat64 x => NpFloat64 (Float.np_round2 x)
  end.

(** ** Exceptions *)

(** The exceptions the scoring code can meet, all of them subclasses of
    [Exception]. *)
Inductive exception : Type :=
  | ZeroDivisionError
  | ValueError (msg : string)
  | ImportError (msg : string)
  | OtherException (name msg : string).

(** [str(e)] *)
Definition exception_str (e : exception) : string :=
  match e with
  | ZeroDivisionError => "division by zero"
  | ValueError msg => msg
  | ImportError msg => msg
  | OtherException _ msg => msg
  end.

Inductive result (A : Type) : Type :=
  | Ok (a : A)
  | Raise (e : exception).

Arguments Ok {A} a.
Arguments Raise {A} e.

Definition bind {A B} (r : result A) (k : A -> result B) : result B :=
  match r with
  | Ok a => k a
  | Raise e => Raise e
  end.

Notation "'let?' x := r 'in' k" := (bind r (fun x => k))
  (at level 10, x pattern, r at level 100, k at level 200).

(** [try: body  except Exception as e: handler(e)] *)
Definition try_except {A} (body : result A) (handler : exception -> result A)
  : result A :=
  match body with
  | Ok a => Ok a
  | Raise e => handler e
  end.

(** [a / b] on two lengths. *)
Definition truediv (a b : nat) : result float :=
  match b with
  | O => Raise ZeroDivisionError
  | S _ => Ok (Float.of_nat a / Float.of_nat b)%float
  end.

(** ** The skill dictionary *)

Definition COMMON_SKILLS : list (string * list string) :=
  [ ("programming",
      ["python"; "java"; "javascript"; "c++"; "ruby"; "php"; "swift";
       "typescript"; "kotlin"; "golang"; "rust"]);
    ("web_dev",
      ["html"; "css"; "react"; "angular"; "vue"; "node.js"; "django";
       "flask"; "express"; "bootstrap"; "jquery"]);
    ("databases",
      ["sql"; "mongodb"; "postgresql"; "mysql"; "oracle"; "redis";
       "elasticsearch"; "dynamodb"; "firebase"]);
    ("devops",
      ["aws"; "azure"; "gcp"; "docker"; "kubernetes"; "jenkins";
       "terraform"; "git"; "ci/cd"; "github actions"]);
    ("data_science",
      ["machine learning"; "data analysis"; "pandas"; "numpy";
       "scikit-learn"; "tensorflow"; "pytorch"; "r"; "tableau"; "power bi"]);
    ("soft_skills",
      ["teamwork"; "leadership"; "communication"; "problem solving";
       "critical thinking"; "time management"]) ].

Definition ALL_SKILLS : list string :=
  concat (List.map snd COMMON_SKILLS).

(** ** [ResumeParser] *)

Record ResumeParser : Type := {
  raw_text : string;
  text : string
}.

Definition ResumeParser_init (t : string) : ResumeParser :=
  {| raw_text := t; text := preprocess_text t |}.

Definition STOP_TOKENS : list string :=
  ["the"; "and"; "for"; "with"; "that"; "have"; "this"].

(** The first loop of [extract_skills], over the list [skills]: the terms
    found in [text_lower]. *)
Definition add_dictionary_hits (skills : list string) (text_lower : string)
  : gset string :=
  foldl (fun extracted skill =>
           if Re.search_word (Str.lower skill) text_lower
           then extracted ∪ {[ skill ]} else extracted)
        ∅ skills.

(** The loop over [ALL_SKILLS]. *)
Definition dictionary_hits (text_lower : string) : gset string :=
  add_dictionary_hits ALL_SKILLS text_lower.

Definition keep_token (m : string) : bool :=
  (2 <? String.length m)%nat
  && negb (bool_decide (Str.lower m ∈ STOP_TOKENS))
  && negb (Str.isdigit m).

(** The second loop of [extract_skills]: the technical tokens of [text]
    added to [extracted]. *)
Definition add_tech_tokens (extracted : gset string) (text : string)
  : gset string :=
  foldl (fun extracted m =>
           if keep_token m then extracted ∪ {[ Str.lower m ]} else extracted)
        extracted (Re.findall_tech text).

(** [list(extracted_skills)] followed by [sort()]. *)
Definition sorted_list (s : gset string) : list string :=
  merge_sort String.le (elements s).

Definition extract_skills (self : ResumeParser) : list string :=
  if Str.is_empty (text self) then []
  else
    let text_lower := Str.lower (text self) in
    let extracted_skills := dictionary_hits text_lower in
    let extracted_skills := add_tech_tokens extracted_skills (text self) in
    sorted_list extracted_skills.

(** ** Scoring *)

(** The loop of [score_resume_by_skills]: the set [matched_skills] of the
    skills of [job_skills_lower] found in [resume_lower]. *)
Definition matched_in (resume_lower : string) (job_skills_lower : list string)
  : gset string :=
  foldl (fun matched skill =>
           if Re.search_word skill resume_lower
           then matched ∪ {[ skill ]} else matched)
        ∅ job_skills_lower.

Definition score_resume_by_skills (resume_text : string) (job_skills : list string)
  : result (float * gset string) :=
  match job_skills with
  | [] => Ok (0%float, ∅)
  | _ =>
      let job_skills_lower := List.map Str.lower job_skills in
      let resume_lower := Str.lower (preprocess_text resume_text) in
      let matched_skills := matched_in resume_lower job_skills_lower in
      let? q := truediv (size matched_skills)
                        (size (list_to_set job_skills_lower : gset string)) in
      let score := (q * 100)%float in
      Ok (Float.round2 score, matched_skills)
  end.

Record ScoreBundle : Type := {
  Skill_Match_Score : float;
  Text_Similarity_Score : number;
  Final_Resume_Score : number;
  Matched_Skills : gset string;
  Job_Skills : list string;
  Resume_Skills : list string
}.

Section Scoring.

(** [TfidfVectorizer(stop_words='english', ngram_range=(1, 2))], its
    [fit_transform] on the two processed texts and the [cosine_similarity]
    of the two rows: the value of the similarity, which scikit-learn
    returns as a NumPy [float64], or the exception it raises (a
    [ValueError] when the vocabulary is empty). *)
Variable tfidf_cosine : string -> string -> result float.

Definition score_resume_by_text_similarity
    (resume_text job_description_text : string) : result number :=
  if Str.is_empty resume_text || Str.is_empty job_description_text
  then Ok (PyFloat 0)
  else
    let processed_resume := preprocess_text resume_text in
    let processed_job := preprocess_text job_description_text in
    try_except
      (let? similarity := tfidf_cosine processed_resume processed_job in
       Ok (number_round2 (number_mul (NpFloat64 similarity) (PyFloat 100))))
      (fun e => Ok (PyFloat 0)).

Definition calculate_final_resume_score
    (resume_text job_description_text : string)
    (skill_weight text_weight : float) : result ScoreBundle :=
  if Str.is_empty resume_text || Str.is_empty job_description_text
  then Ok {| Skill_Match_Score := 0; Text_Similarity_Score := PyFloat 0;
             Final_Resume_Score := PyFloat 0; Matched_Skills := ∅;
             Job_Skills := []; Resume_Skills := [] |}
  else
    let job_parser := ResumeParser_init job_description_text in
    let job_skills := extract_skills job_parser in
    let resume_parser := ResumeParser_init resume_text in
    let resume_skills := extract_skills resume_parser in
    let? (skill_score, matched_skills) :=
      score_resume_by_skills resume_text job_skills in
    let? text_similarity_score :=
      score_resume_by_text_similarity resume_text job_description_text in
    let final_score :=
      number_round2
        (number_add (PyFloat (skill_score * skill_weight))
                    (number_mul text_similarity_score (PyFloat text_weight))) in
    Ok {| Skill_Match_Score := skill_score;
          Text_Similarity_Score := text_similarity_score;
          Final_Resume_Score := final_score;
          Matched_Skills := matched_skills;
          Job_Skills := job_skills;
          Resume_Skills := resume_skills |}.

End Scoring.

(** ** Definitions used by the statements *)

(** The shape of the loops that fill a set: [name x] is added for every [x]
    of [l] that is kept. *)
Definition collect {A : Type} (keep : A -> bool) (name : A -> string)
    (acc : gset string) (l : list A) : gset string :=
  foldl (fun acc x => if keep x then acc ∪ {[ name x ]} else acc) acc l.

(** [p] occurs in [s] as a whole word or phrase: [s] is [pre ++ p ++ post]
    with a word boundary where [p] starts and one where it ends. *)
Definition occurs_as_word (p s : string) : Prop :=
  exists pre post,
    s = pre ++ p ++ post
    /\ Re.at_boundary (Str.last None pre) (p ++ post) = true
    /\ Re.at_boundary (Str.last None (pre ++ p)) post = true.

(** The three scores of a bundle, if one was returned. *)
Definition bundle_scores (r : result ScoreBundle) : option (float * number * number) :=
  match r with
  | Ok b => Some (Skill_Match_Score b, Text_Similarity_Score b, Final_Resume_Score b)
  | Raise _ => None
  end.

(** The bundle of the empty-input branch of
    [calculate_final_resume_score]. *)
Definition zero_bundle : ScoreBundle :=
  {| Skill_Match_Score := 0; Text_Similarity_Score := PyFloat 0;
     Final_Resume_Score := PyFloat 0; Matched_Skills := ∅;
     Job_Skills := []; Resume_Skills := [] |}.

Definition is_slash (c : ascii) : bool := Char.is_code 47 c.

(** The vectoriser on a vocabulary emptied by the stop-word filter. *)
Definition empty_vocabulary : string -> string -> result float :=
  fun _ _ => Raise (ValueError "empty vocabulary; perhaps the documents only contain stop words").

(** The percentage as the specification words it:
    [100 * |matched| / |unique|], rounded to two decimals. *)
Definition spec_percentage (matched unique : nat) : float :=
  Float.round2 (100 * Float.of_nat matched / Float.of_nat unique)%float.

(** A list of 160 required skills and a resume that names the first 23. *)
Definition skills_160 : list string :=
  [
    "k001"; "k002"; "k003"; "k004"; "k005"; "k006"; "k007"; "k008";
    "k009"; "k010"; "k011"; "k012"; "k013"; "k014"; "k015"; "k016";
    "k017"; "k018"; "k019"; "k020"; "k021"; "k022"; "k023"; "k024";
    "k025"; "k026"; "k027"; "k028"; "k029"; "k030"; "k031"; "k032";
    "k033"; "k034"; "k035"; "k036"; "k037"; "k038"; "k039"; "k040";
    "k041"; "k042"; "k043"; "k044"; "k045"; "k046"; "k047"; "k048";
    "k049"; "k050"; "k051"; "k052"; "k053"; "k054"; "k055"; "k056";
    "k057"; "k058"; "k059"; "k060"; "k061"; "k062"; "k063"; "k064";
    "k065"; "k066"; "k067"; "k068"; "k069"; "k070"; "k071"; "k072";
    "k073"; "k074"; "k075"; "k076"; "k077"; "k078"; "k079"; "k080";
    "k081"; "k082"; "k083"; "k084"; "k085"; "k086"; "k087"; "k088";
    "k089"; "k090"; "k091"; "k092"; "k093"; "k094"; "k095"; "k096";
    "k097"; "k098"; "k099"; "k100"; "k101"; "k102"; "k103"; "k104";
    "k105"; "k106"; "k107"; "k108"; "k109"; "k110"; "k111"; "k112";
    "k113"; "k114"; "k115"; "k116"; "k117"; "k118"; "k119"; "k120";
    "k121"; "k122"; "k123"; "k124"; "k125"; "k126"; "k127"; "k128";
    "k129"; "k130"; "k131"; "k132"; "k133"; "k134"; "k135"; "k136";
    "k137"; "k138"; "k139"; "k140"; "k141"; "k142"; "k143"; "k144";
    "k145"; "k146"; "k147"; "k148"; "k149"; "k150"; "k151"; "k152";
    "k153"; "k154"; "k155"; "k156"; "k157"; "k158"; "k159"; "k160" ].

Definition resume_23 : string :=
  "k001 k002 k003 k004 k005 k006 k007 k008 k009 k010 k011 k012 k013 k014 k015 k016 k017 k018 k019 k020 k021 k022 k023".

(** ** [load_pdf_module] and [extract_text_from_pdf] *)

(** What the two functions show or log, in order. *)
Inductive event : Type :=
  | StWarning (msg : string)
  | StError (msg : string)
  | LoggerError (msg : string).

(** The uploaded file handed to [extract_text_from_pdf]: what its [read()]
    and its [seek(0)] do. *)
Record uploaded_file : Type := {
  file_read : result string;
  file_seek : result unit
}.

(** The PyPDF2 module: [PdfReader] on the bytes read gives the pages or
    raises, and [extract_text] on a page gives its text, [None], or
    raises. *)
Record pdf_module (page : Type) : Type := {
  PdfReader : string -> result (list page);
  page_extract_text : page -> result (option string)
}.

Arguments PdfReader {page} _ _.
Arguments page_extract_text {page} _ _.

Section Pdf.

Context {page : Type}.

(** The environment of [load_pdf_module]: what [import PyPDF2] does when
    it is first reached, what [subprocess.call] of the [pip install] does
    (its exit code, or an exception when it cannot be started), and what
    [import PyPDF2] does after it. *)
Variable import_PyPDF2 : result (pdf_module page).
Variable pip_install_PyPDF2 : result Z.
Variable import_PyPDF2_again : result (pdf_module page).

(** One call of [load_pdf_module]; [st.cache_resource] only spares later
    calls the work.  Only an [ImportError] is handled. *)
Definition load_pdf_module : list event * result (pdf_module page) :=
  match import_PyPDF2 with
  | Ok PyPDF2 => ([], Ok PyPDF2)
  | Raise (ImportError _) =>
      ([StWarning "Installing PDF processing library..."],
       let? _ := pip_install_PyPDF2 in
       import_PyPDF2_again)
  | Raise e => ([], Raise e)
  end.

(** The loop over [reader.pages], [text] being what is gathered so far. *)
Fixpoint pages_text (PyPDF2 : pdf_module page) (text : string) (pages : list page)
  : result string :=
  match pages with
  | [] => Ok text
  | p :: pages =>
      let? page_text := page_extract_text PyPDF2 p in
      match page_text with
      | Some t =>
          if Str.is_empty t then pages_text PyPDF2 text pages
          else pages_text PyPDF2 (text ++ (t ++ " ")) pages
      | None => pages_text PyPDF2 text pages
      end
  end.

(** The body of the [try] of [extract_text_from_pdf]. *)
Definition read_pdf (PyPDF2 : pdf_module page) (pdf_file : uploaded_file)
  : result string :=
  let text := "" in
  let? pdf_bytes := file_read pdf_file in
  let? _ := file_seek pdf_file in
  let? pages := PdfReader PyPDF2 pdf_bytes in
  let? text := pages_text PyPDF2 text pages in
  Ok (Str.strip text).

(** The two messages of the [except] branch. *)
Definition pdf_error_events (e : exception) : list event :=
  [ LoggerError ("Error reading PDF: " ++ exception_str e);
    StError ("Error extracting text from PDF: " ++ exception_str e) ].

(** [extract_text_from_pdf]: what it shows and logs, and what it returns
    or raises.  [load_pdf_module] is called before the [try]. *)
Definition extract_text_from_pdf (pdf_file : uploaded_file)
  : list event * result string :=
  match load_pdf_module with
  | (shown, Raise e) => (shown, Raise e)
  | (shown, Ok PyPDF2) =>
      match read_pdf PyPDF2 pdf_file with
      | Ok text => (shown, Ok text)
      | Raise e => ((shown ++ pdf_error_events e)%list, Ok "")
      end
  end.

End Pdf.

(** ** [main] *)

(** [missing_skills] of [main], computed from the bundle [result]. *)
Definition missing_skills (result : ScoreBundle) : gset string :=
  list_to_set (List.map Str.lower (Job_Skills result))
  ∖ set_map Str.lower (Matched_Skills result).

(** ** Character classes and shapes used by the statements *)

(** A word character, a plain space, a full stop or a hyphen. *)
Definition is_normal_char (c : ascii) : bool :=
  Char.is_word c || Char.is_code 32 c || Char.is_code 46 c || Char.is_code 45 c.

(** A character that normalisation turns into a space. *)
Definition is_blank_char (c : ascii) : bool :=
  Char.is_space c || Char.is_punctuation c.

(** A lower-case letter [a]..[z]. *)
Definition is_lower_letter (c : ascii) : bool := Char.between 97 122 c.

(** [s] holds no punctuation, its whitespace is plain spaces and no two of
    them are adjacent; [after_space] tells that a space precedes [s]. *)
Fixpoint tidy (after_space : bool) (s : string) : bool :=
  match s with
  | "" => true
  | String c s' =>
      if Char.is_space c
      then Char.is_code 32 c && negb after_space && tidy true s'
      else negb (Char.is_punctuation c) && tidy false s'
  end.

(** The first, respectively last, character of [s] is not whitespace. *)
Definition starts_clean (s : string) : bool :=
  match Str.head s with Some c => negb (Char.is_space c) | None => true end.

Definition ends_clean (s : string) : bool :=
  match Str.last None s with Some c => negb (Char.is_space c) | None => true end.

(** The characters of [s] that normalisation keeps, in their order: those
    that are neither whitespace nor punctuation. *)
Fixpoint kept_characters (s : string) : string :=
  match s with
  | "" => ""
  | String c s' =>
      if is_blank_char c then kept_characters s' else String c (kept_characters s')
  end.

(** A PyPDF2 that reads every file as two pages, the second of which
    cannot be read; and an upload. *)
Definition sample_module : pdf_module nat :=
  {| PdfReader := fun _ => Ok [1%nat; 2%nat];
     page_extract_text := fun n =>
       if (n =? 2)%nat then Raise (OtherException "PdfReadError" "EOF marker not found")
       else Ok (Some "Python developer") |}.

Definition sample_file : uploaded_file :=
  {| file_read := Ok "%PDF"; file_seek := Ok tt |}.

(** * Properties *)

(** Punctuation becomes a space, also next to a space. *)
Example preprocess_text_demo :
  preprocess_text "  Python, SQL (5 yrs) - node.js/React " =
  "Python  SQL  5 yrs  - node.js React".
Proof. vm_compute. reflexivity. Qed.

(** ** The normaliser is not idempotent *)

(** C1. [preprocess_text] collapses the runs of whitespace before it turns
    punctuation into spaces, so a punctuation mark next to a space leaves
    two spaces, which a second pass collapses: on ["a, b"] the first pass
    yields ["a  b"] and the second ["a b"]. *)
Theorem preprocess_text_twice_differs :
  preprocess_text "a, b" = "a  b"
  /\ preprocess_text (preprocess_text "a, b") = "a b"
  /\ preprocess_text (preprocess_text "a, b") <> preprocess_text "a, b".
Proof.
  split; [| split]; vm_compute; [reflexivity | reflexivity | discriminate].
Qed.

(** ** No exception leaves the scoring functions *)

Lemma is_empty_true (s : string) : Str.is_empty s = true <-> s = "".
Proof. destruct s; simpl; split; congruence. Qed.

Lemma is_empty_false (s : string) : Str.is_empty s = false <-> s <> "".
Proof. destruct s; simpl; split; congruence. Qed.

Lemma truediv_positive (a b : nat) :
  b <> 0%nat -> truediv a b = Ok (Float.of_nat a / Float.of_nat b)%float.
Proof. destruct b; [congruence | reflexivity]. Qed.

Lemma size_lowered_skills (j : string) (js : list string) :
  size (list_to_set (List.map Str.lower (j :: js)) : gset string) <> 0%nat.
Proof.
  apply size_non_empty_iff. intros Hempty.
  assert (Hin : Str.lower j ∈ (list_to_set (List.map Str.lower (j :: js)) : gset string)).
  { simpl. set_solver. }
  rewrite Hempty in Hin. set_solver.
Qed.

(** [score_resume_by_skills] written out on a non-empty list: the value it
    returns, with no exception. *)
Lemma score_resume_by_skills_nonempty (resume_text : string) (job_skills : list string) :
  job_skills <> [] ->
  score_resume_by_skills resume_text job_skills =
    let lowered := List.map Str.lower job_skills in
    let matched := matched_in (Str.lower (preprocess_text resume_text)) lowered in
    Ok (Float.round2
          (Float.of_nat (size matched)
           / Float.of_nat (size (list_to_set lowered : gset string)) * 100)%float,
        matched).
Proof.
  destruct job_skills as [|j js]; [congruence | intros _].
  unfold score_resume_by_skills. cbv zeta.
  rewrite (truediv_positive _ _ (size_lowered_skills j js)). reflexivity.
Qed.

Lemma score_resume_by_skills_total (resume_text : string) (job_skills : list string) :
  exists score matched,
    score_resume_by_skills resume_text job_skills = Ok (score, matched).
Proof.
  destruct job_skills as [|j js].
  - exists 0%float, ∅. reflexivity.
  - eexists _, _. apply score_resume_by_skills_nonempty. discriminate.
Qed.

Section ScoringFacts.

Variable tfidf_cosine : string -> string -> result float.

Lemma score_resume_by_text_similarity_total (a b : string) :
  exists v, score_resume_by_text_similarity tfidf_cosine a b = Ok v.
Proof.
  unfold score_resume_by_text_similarity.
  destruct (Str.is_empty a || Str.is_empty b); [eauto |].
  destruct (tfidf_cosine (preprocess_text a) (preprocess_text b)); simpl; eauto.
Qed.

End ScoringFacts.

(** C5. [score_resume_by_text_similarity] returns [0.0] when either text is
    empty, returns [0.0] when the vectoriser or the cosine similarity raises
    an exception, and in every case returns a value: no exception reaches
    the caller. *)
Theorem text_similarity_never_raises
    (tfidf_cosine : string -> string -> result float) (a b : string) :
  (a = "" \/ b = "" ->
     score_resume_by_text_similarity tfidf_cosine a b = Ok (PyFloat 0))
  /\ (forall e, tfidf_cosine (preprocess_text a) (preprocess_text b) = Raise e ->
        score_resume_by_text_similarity tfidf_cosine a b = Ok (PyFloat 0))
  /\ (exists v, score_resume_by_text_similarity tfidf_cosine a b = Ok v).
Proof.
  split; [| split].
  - intros [-> | ->]; unfold score_resume_by_text_similarity; simpl;
      [reflexivity | rewrite orb_true_r; reflexivity].
  - intros e He. unfold score_resume_by_text_similarity.
    destruct (Str.is_empty a || Str.is_empty b); [reflexivity |].
    rewrite He. reflexivity.
  - apply score_resume_by_text_similarity_total.
Qed.

Lemma text_similarity_never_raises_witness :
  ("" = "" \/ "anything" = "")
  /\ score_resume_by_text_similarity empty_vocabulary "" "anything" = Ok (PyFloat 0)
  /\ empty_vocabulary (preprocess_text "the") (preprocess_text "and")
       = Raise (ValueError "empty vocabulary; perhaps the documents only contain stop words")
  /\ score_resume_by_text_similarity empty_vocabulary "the" "and" = Ok (PyFloat 0).
Proof.
  split; [left; reflexivity |].
  split.
  { apply (proj1 (text_similarity_never_raises empty_vocabulary "" "anything")).
    left; reflexivity. }
  split; [reflexivity |].
  apply (proj1 (proj2 (text_similarity_never_raises empty_vocabulary "the" "and"))
           (ValueError "empty vocabulary; perhaps the documents only contain stop words")).
  reflexivity.
Defined.

(** ** The aggregate *)

(** C6. With an empty resume text or an empty job text the aggregate is
    the bundle of three [0.0] scores, an empty matched set and two empty
    skill lists, whatever the vectoriser would do (it is not consulted) and
    with no exception. *)
Theorem empty_input_zero_bundle
    (tfidf_cosine : string -> string -> result float)
    (resume_text job_text : string) (skill_weight text_weight : float) :
  resume_text = "" \/ job_text = "" ->
  calculate_final_resume_score tfidf_cosine resume_text job_text
    skill_weight text_weight = Ok zero_bundle.
Proof.
  intros [-> | ->]; unfold calculate_final_resume_score; simpl;
    [reflexivity | rewrite orb_true_r; reflexivity].
Qed.

Lemma empty_input_zero_bundle_witness :
  ("Python developer" = "" \/ "" = "")
  /\ calculate_final_resume_score empty_vocabulary "Python developer" "" 0.5 0.5
     = Ok zero_bundle.
Proof.
  split; [right; reflexivity |].
  apply (empty_input_zero_bundle empty_vocabulary "Python developer" "" 0.5 0.5).
  right; reflexivity.
Defined.

(** The aggregate written out on two non-empty texts. *)
Lemma calculate_final_resume_score_nonempty
    (tfidf_cosine : string -> string -> result float)
    (resume_text job_text : string) (skill_weight text_weight : float) :
  resume_text <> "" -> job_text <> "" ->
  exists skill_score matched text_score,
    score_resume_by_skills resume_text
      (extract_skills (ResumeParser_init job_text)) = Ok (skill_score, matched)
    /\ score_resume_by_text_similarity tfidf_cosine resume_text job_text
       = Ok text_score
    /\ calculate_final_resume_score tfidf_cosine resume_text job_text
         skill_weight text_weight =
       Ok {| Skill_Match_Score := skill_score;
             Text_Similarity_Score := text_score;
             Final_Resume_Score :=
               number_round2
                 (number_add (PyFloat (skill_score * skill_weight))
                             (number_mul text_score (PyFloat text_weight)));
             Matched_Skills := matched;
             Job_Skills := extract_skills (ResumeParser_init job_text);
             Resume_Skills := extract_skills (ResumeParser_init resume_text) |}.
Proof.
  intros Hr Hj.
  destruct (score_resume_by_skills_total resume_text
              (extract_skills (ResumeParser_init job_text))) as (sc & m & Hs).
  destruct (score_resume_by_text_similarity_total tfidf_cosine resume_text job_text)
    as (ts & Ht).
  exists sc, m, ts. split; [exact Hs | split; [exact Ht |]].
  unfold calculate_final_resume_score.
  apply is_empty_false in Hr, Hj. rewrite Hr, Hj. simpl.
  rewrite Hs. simpl. rewrite Ht. reflexivity.
Qed.

(** C3. On non-empty texts the aggregate returns a bundle whose skill score
    is that of [score_resume_by_skills] on the resume and the extracted job
    skills, whose text score is that of [score_resume_by_text_similarity],
    and whose final score is
    [round(skill_score * skill_weight + text_score * text_weight, 2)], for
    every pair of weights: they are neither checked nor rescaled.  [round]
    is that of the sum: NumPy's when the text score is a NumPy scalar
    ([60.0 * 0.7 + 62.25 * 0.3] gives [60.68]), Python's when the text score
    is the [0.0] of the exception handler ([50.0 * 0.0535 + 0.0 * 0.9465]
    gives [2.67]). *)
Theorem final_score_is_weighted_sum :
  (forall (tfidf_cosine : string -> string -> result float)
          (resume_text job_text : string) (skill_weight text_weight : float),
      resume_text <> "" -> job_text <> "" ->
      exists b skill_score matched text_score,
        score_resume_by_skills resume_text
          (extract_skills (ResumeParser_init job_text)) = Ok (skill_score, matched)
        /\ score_resume_by_text_similarity tfidf_cosine resume_text job_text
           = Ok text_score
        /\ calculate_final_resume_score tfidf_cosine resume_text job_text
             skill_weight text_weight = Ok b
        /\ Skill_Match_Score b = skill_score
        /\ Text_Similarity_Score b = text_score
        /\ Final_Resume_Score b =
           number_round2
             (number_add (PyFloat (skill_score * skill_weight))
                         (number_mul text_score (PyFloat text_weight))))
  /\ bundle_scores
       (calculate_final_resume_score (fun _ _ => Ok 0.6225%float)
          "python sql docker" "python sql docker kubernetes aws" 0.7 0.3)
     = Some (60%float, NpFloat64 62.25, NpFloat64 60.68)
  /\ bundle_scores
       (calculate_final_resume_score empty_vocabulary
          "python" "python sql" 0.0535 0.9465)
     = Some (50%float, PyFloat 0, PyFloat 2.67).
Proof.
  split; [| split; vm_compute; reflexivity].
  intros tfidf_cosine resume_text job_text skill_weight text_weight Hr Hj.
  destruct (calculate_final_resume_score_nonempty tfidf_cosine resume_text job_text
              skill_weight text_weight Hr Hj) as (sc & m & ts & Hs & Ht & ->).
  eexists _, sc, m, ts. repeat (split; [first [exact Hs | exact Ht | reflexivity] |]).
  reflexivity.
Qed.

Lemma final_score_is_weighted_sum_witness :
  "Python SQL" <> "" /\ "python, sql" <> ""
  /\ exists b skill_score matched text_score,
      score_resume_by_skills "Python SQL"
        (extract_skills (ResumeParser_init "python, sql")) = Ok (skill_score, matched)
      /\ score_resume_by_text_similarity (fun _ _ => Ok 1%float) "Python SQL" "python, sql"
         = Ok text_score
      /\ calculate_final_resume_score (fun _ _ => Ok 1%float) "Python SQL" "python, sql" 1 1
         = Ok b
      /\ Skill_Match_Score b = skill_score
      /\ Text_Similarity_Score b = text_score
      /\ Final_Resume_Score b =
         number_round2
           (number_add (PyFloat (skill_score * 1)) (number_mul text_score (PyFloat 1))).
Proof.
  split; [discriminate | split; [discriminate |]].
  apply (proj1 final_score_is_weighted_sum
           (fun _ _ => Ok 1%float) "Python SQL" "python, sql" 1%float 1%float);
    discriminate.
Defined.

(** Two weights of [1.0] are applied as they are: the final score is the
    sum of the two sub-scores, here [200.0]. *)
Example weights_not_normalised :
  bundle_scores
    (calculate_final_resume_score (fun _ _ => Ok 1%float)
       "Python SQL" "python, sql" 1 1)
  = Some (100%float, NpFloat64 100, NpFloat64 200).
Proof. vm_compute. reflexivity. Qed.

(** The two roundings differ where the hundredths of the double are a tie:
    [2.675] is the double just below the decimal [2.675], which Python
    rounds down, while its product by [100.0] is [267.5], which NumPy
    rounds to the even [268]. *)
Example round2_np_round2 :
  Float.round2 2.675 = 2.67%float /\ Float.np_round2 2.675 = 2.68%float
  /\ Float.round2 1e307 = 1e307%float /\ Float.np_round2 1e307 = infinity
  /\ Float.rint 2.5 = 2%float /\ Float.rint 3.5 = 4%float
  /\ Float.rint (-0.3) = (-0)%float.
Proof. repeat split; vm_compute; reflexivity. Qed.

(** ** Membership in the sets the loops build *)

Section Collect.

Context {A : Type} (keep : A -> bool) (name : A -> string).

Lemma elem_of_collect (s : string) (l : list A) : forall acc,
  s ∈ collect keep name acc l
  <-> s ∈ acc \/ exists x, x ∈ l /\ keep x = true /\ s = name x.
Proof.
  unfold collect. induction l as [|x l IH]; intros acc; simpl.
  - split; [auto | intros [H | (x & Hx & _)]; [exact H | inversion Hx]].
  - rewrite IH. split.
    + intros [H | (y & Hy & Hk & ->)].
      * destruct (keep x) eqn:Hk.
        -- apply elem_of_union in H as [H | H]; [auto |].
           apply elem_of_singleton in H as ->. right. exists x.
           split; [left | auto].
        -- auto.
      * right. exists y. split; [right; exact Hy | auto].
    + intros [H | (y & Hy & Hk & ->)].
      * left. destruct (keep x); [apply elem_of_union; left |]; exact H.
      * apply elem_of_cons in Hy as [-> | Hy].
        -- left. rewrite Hk. apply elem_of_union. right.
           apply elem_of_singleton. reflexivity.
        -- right. exists y. auto.
Qed.

End Collect.

Lemma elem_of_matched_in (s resume_lower : string) (l : list string) :
  s ∈ matched_in resume_lower l <-> s ∈ l /\ Re.search_word s resume_lower = true.
Proof.
  unfold matched_in.
  change (s ∈ collect (fun x => Re.search_word x resume_lower) (fun x => x) ∅ l
          <-> s ∈ l /\ Re.search_word s resume_lower = true).
  rewrite elem_of_collect. split.
  - intros [H | (x & Hx & Hk & ->)]; [set_solver | auto].
  - intros [H1 H2]. right. exists s. auto.
Qed.

Lemma elem_of_add_dictionary_hits (s text_lower : string) (skills : list string) :
  s ∈ add_dictionary_hits skills text_lower
  <-> s ∈ skills /\ Re.search_word (Str.lower s) text_lower = true.
Proof.
  unfold add_dictionary_hits.
  change (s ∈ collect (fun x => Re.search_word (Str.lower x) text_lower) (fun x => x) ∅ skills
          <-> s ∈ skills /\ Re.search_word (Str.lower s) text_lower = true).
  rewrite elem_of_collect. split.
  - intros [H | (x & Hx & Hk & ->)]; [set_solver | auto].
  - intros [H1 H2]. right. exists s. auto.
Qed.

Lemma elem_of_dictionary_hits (s text_lower : string) :
  s ∈ dictionary_hits text_lower
  <-> s ∈ ALL_SKILLS /\ Re.search_word (Str.lower s) text_lower = true.
Proof. apply elem_of_add_dictionary_hits. Qed.

Lemma elem_of_add_tech_tokens (s : string) (extracted : gset string) (t : string) :
  s ∈ add_tech_tokens extracted t
  <-> s ∈ extracted
      \/ exists m, m ∈ Re.findall_tech t /\ keep_token m = true /\ s = Str.lower m.
Proof. unfold add_tech_tokens. apply (elem_of_collect keep_token Str.lower). Qed.

Lemma elem_of_sorted_list (s : string) (X : gset string) :
  s ∈ sorted_list X <-> s ∈ X.
Proof.
  unfold sorted_list. rewrite (merge_sort_Permutation String.le (elements X)).
  apply elem_of_elements.
Qed.

(** What [extract_skills] returns: the dictionary terms found in the
    lowered text and the lowered technical tokens that are kept. *)
Lemma elem_of_extract_skills (s : string) (self : ResumeParser) :
  s ∈ extract_skills self
  <-> text self <> ""
      /\ ((s ∈ ALL_SKILLS /\ Re.search_word (Str.lower s) (Str.lower (text self)) = true)
          \/ exists m, m ∈ Re.findall_tech (text self)
                       /\ keep_token m = true /\ s = Str.lower m).
Proof.
  unfold extract_skills. destruct (Str.is_empty (text self)) eqn:He.
  - apply is_empty_true in He. split; [intros H; inversion H | intros [H _]; congruence].
  - apply is_empty_false in He.
    rewrite elem_of_sorted_list, elem_of_add_tech_tokens, elem_of_dictionary_hits.
    tauto.
Qed.

(** ** Lower case *)

(** A property of one character is checked on the 256 of them. *)
Ltac each_character c :=
  destruct c as [[] [] [] [] [] [] [] []]; vm_compute; congruence.

Lemma char_lower_idempotent (c : ascii) : Char.lower (Char.lower c) = Char.lower c.
Proof. each_character c. Qed.


Lemma lower_idempotent (s : string) : Str.lower (Str.lower s) = Str.lower s.
Proof.
  unfold Str.lower. induction s as [|c s IH]; [reflexivity |].
  cbn [Str.map]. rewrite char_lower_idempotent, IH. reflexivity.
Qed.

Lemma ALL_SKILLS_lower (s : string) : s ∈ ALL_SKILLS -> Str.lower s = s.
Proof.
  assert (H : List.forallb (fun s => String.eqb (Str.lower s) s) ALL_SKILLS = true)
    by (vm_compute; reflexivity).
  rewrite List.forallb_forall in H. intros Hs.
  apply String.eqb_eq, H, list_elem_of_In, Hs.
Qed.

(** Every string [extract_skills] returns is in lower case. *)
Lemma extract_skills_lower (s : string) (self : ResumeParser) :
  s ∈ extract_skills self -> Str.lower s = s.
Proof.
  rewrite elem_of_extract_skills. intros [_ [[Hs _] | (m & _ & _ & ->)]].
  - apply ALL_SKILLS_lower, Hs.
  - apply lower_idempotent.
Qed.

(** ** The matched skills *)

(** What [score_resume_by_skills] returns as its set: the lowered required
    skills that the word-boundary search finds in the lowered, normalised
    resume. *)
Lemma score_resume_by_skills_matched
    (resume_text : string) (job_skills : list string)
    (score : float) (matched : gset string) :
  score_resume_by_skills resume_text job_skills = Ok (score, matched) ->
  matched = matched_in (Str.lower (preprocess_text resume_text))
                       (List.map Str.lower job_skills).
Proof.
  destruct job_skills as [|j js].
  - simpl. intros [= _ <-]. reflexivity.
  - rewrite score_resume_by_skills_nonempty by discriminate.
    cbv zeta. intros [= _ <-]. reflexivity.
Qed.

(** C9. [score_resume_by_skills] returns a set, and every string of it is
    the lowered form of one of the required skills, hence in lower case
    itself. *)
Theorem matched_skills_are_lowered (resume_text : string) (job_skills : list string) :
  exists score matched,
    score_resume_by_skills resume_text job_skills = Ok (score, matched)
    /\ forall s, s ∈ matched ->
         (exists j, j ∈ job_skills /\ s = Str.lower j) /\ Str.lower s = s.
Proof.
  destruct (score_resume_by_skills_total resume_text job_skills) as (sc & m & H).
  exists sc, m. split; [exact H |].
  apply score_resume_by_skills_matched in H as ->.
  intros s [Hs _]%elem_of_matched_in.
  apply list_elem_of_fmap in Hs as (j & -> & Hj).
  split; [eauto | apply lower_idempotent].
Qed.

(** A required skill written ["Python"] comes back as ["python"]. *)
Example mixed_case_required_skill :
  score_resume_by_skills "I use Python daily" ["Python"] = Ok (100%float, {[ "python" ]})
  /\ "Python" ∉ ({[ "python" ]} : gset string).
Proof.
  split; [vm_compute; reflexivity |].
  intros H%elem_of_singleton. discriminate H.
Qed.

(** C2. On two non-empty texts the aggregate returns a bundle whose
    matched skills all occur in its list of job skills. *)
Theorem matched_skills_subset_job_skills
    (tfidf_cosine : string -> string -> result float)
    (resume_text job_text : string) (skill_weight text_weight : float) :
  resume_text <> "" -> job_text <> "" ->
  exists b,
    calculate_final_resume_score tfidf_cosine resume_text job_text
      skill_weight text_weight = Ok b
    /\ forall s, s ∈ Matched_Skills b -> s ∈ Job_Skills b.
Proof.
  intros Hr Hj.
  destruct (calculate_final_resume_score_nonempty tfidf_cosine resume_text job_text
              skill_weight text_weight Hr Hj) as (sc & m & ts & Hs & _ & ->).
  eexists. split; [reflexivity |]. simpl.
  apply score_resume_by_skills_matched in Hs as ->.
  intros s [Hs _]%elem_of_matched_in.
  apply list_elem_of_fmap in Hs as (j & -> & Hj').
  rewrite (extract_skills_lower j _ Hj'). exact Hj'.
Qed.

Lemma matched_skills_subset_job_skills_witness :
  "Built dashboards using Python and Pandas" <> ""
  /\ "Looking for Python, Pandas, and SQL" <> ""
  /\ exists b,
      calculate_final_resume_score empty_vocabulary
        "Built dashboards using Python and Pandas"
        "Looking for Python, Pandas, and SQL" 0.5 0.5 = Ok b
      /\ forall s, s ∈ Matched_Skills b -> s ∈ Job_Skills b.
Proof.
  split; [discriminate | split; [discriminate |]].
  apply (matched_skills_subset_job_skills empty_vocabulary
           "Built dashboards using Python and Pandas"
           "Looking for Python, Pandas, and SQL" 0.5 0.5); discriminate.
Defined.

(** ** Occurrences delimited by word boundaries *)

Lemma append_nil_l (s : string) : "" ++ s = s.
Proof. reflexivity. Qed.

Lemma append_cons (c : ascii) (a b : string) : String c a ++ b = String c (a ++ b).
Proof. reflexivity. Qed.

Lemma last_append (a b : string) : forall prev,
  Str.last prev (a ++ b) = Str.last (Str.last prev a) b.
Proof.
  induction a as [|c a IH]; intros prev; [reflexivity |].
  rewrite append_cons. cbn [Str.last]. apply IH.
Qed.


Lemma forallb_append (p : ascii -> bool) (a b : string) :
  Str.forallb p (a ++ b) = Str.forallb p a && Str.forallb p b.
Proof.
  induction a as [|c a IH]; [reflexivity |].
  rewrite append_cons. cbn [Str.forallb]. rewrite IH. apply andb_assoc.
Qed.

Lemma strip_prefix_append (p s rest : string) :
  Str.strip_prefix p s = Some rest <-> s = p ++ rest.
Proof.
  revert s. induction p as [|a p IH]; intros s.
  - cbn [Str.strip_prefix]. rewrite append_nil_l. split; congruence.
  - rewrite append_cons. destruct s as [|b s]; cbn [Str.strip_prefix].
    + split; discriminate.
    + destruct (Ascii.eqb_spec a b) as [-> | Hne].
      * rewrite IH. split; congruence.
      * split; [discriminate | congruence].
Qed.

(** The search of the model finds exactly the occurrences delimited by word
    boundaries, from any starting point. *)
Lemma search_word_from_occurs (p s : string) : forall prev,
  Re.search_word_from prev p s = true
  <-> exists pre post,
        s = pre ++ p ++ post
        /\ Re.at_boundary (Str.last prev pre) (p ++ post) = true
        /\ Re.at_boundary (Str.last prev (pre ++ p)) post = true.
Proof.
  assert (Hhere : forall prev s,
    Re.match_word_at prev p s = true
    <-> exists post, s = p ++ post
          /\ Re.at_boundary prev (p ++ post) = true
          /\ Re.at_boundary (Str.last prev p) post = true).
  { intros prev t. unfold Re.match_word_at. split.
    - intros [Hb Hm]%andb_true_iff.
      destruct (Str.strip_prefix p t) as [rest|] eqn:Hp; [| discriminate].
      apply strip_prefix_append in Hp. exists rest. rewrite <- Hp. auto.
    - intros (post & Hs & Hb1 & Hb2). rewrite <- Hs in Hb1. rewrite Hb1.
      apply strip_prefix_append in Hs. rewrite Hs. exact Hb2. }
  induction s as [|c s IH]; intros prev; cbn [Re.search_word_from].
  - rewrite orb_false_r, Hhere. split.
    + intros (post & H). exists "", post. exact H.
    + intros (pre & post & H). destruct pre as [|c pre].
      * exists post. exact H.
      * rewrite append_cons in H. destruct H as [H _]. discriminate H.
  - rewrite orb_true_iff, Hhere, IH. split.
    + intros [(post & H) | (pre & post & Hs & Hb1 & Hb2)].
      * exists "", post. exact H.
      * exists (String c pre), post. rewrite !append_cons. cbn [Str.last].
        rewrite Hs. auto.
    + intros (pre & post & H). destruct pre as [|c' pre].
      * left. exists post. exact H.
      * right. rewrite !append_cons in H. cbn [Str.last] in H.
        destruct H as (Hs & Hb1 & Hb2). injection Hs as -> ->.
        exists pre, post. auto.
Qed.

(** [re.search(r'\b' + re.escape(p) + r'\b', s)] succeeds exactly when [p]
    occurs in [s] as a whole word or phrase. *)
Lemma search_word_occurs (p s : string) :
  Re.search_word p s = true <-> occurs_as_word p s.
Proof. apply search_word_from_occurs. Qed.

(** A match of the repetition is a prefix of the text and ends at a word
    boundary. *)
Lemma tech_tail_prefix (s : string) : forall prev n t,
  Re.tech_tail prev n s = Some t ->
  exists rest, s = t ++ rest
               /\ Re.at_boundary (Str.last (Some prev) t) rest = true.
Proof.
  assert (Hstop : forall prev n s t,
    (if (2 <=? n)%nat && Re.at_boundary (Some prev) s then Some "" else None) = Some t ->
    exists rest, s = t ++ rest /\ Re.at_boundary (Str.last (Some prev) t) rest = true).
  { intros prev n u t H.
    destruct ((2 <=? n)%nat && Re.at_boundary (Some prev) u) eqn:Hc; [| discriminate].
    injection H as <-. apply andb_true_iff in Hc as [_ Hb]. exists u. auto. }
  induction s as [|c s IH]; intros prev n t; cbn [Re.tech_tail].
  - apply Hstop.
  - destruct (Char.is_tech c); [| apply Hstop].
    destruct (Re.tech_tail c (S n) s) as [t'|] eqn:Ht; [| apply Hstop].
    intros [= <-]. destruct (IH _ _ _ Ht) as (rest & -> & Hb).
    exists rest. rewrite append_cons. auto.
Qed.

Lemma tech_match_at_prefix (prev : option ascii) (s tok : string) :
  Re.tech_match_at prev s = Some tok ->
  exists rest, s = tok ++ rest
               /\ Re.at_boundary prev (tok ++ rest) = true
               /\ Re.at_boundary (Str.last prev tok) rest = true.
Proof.
  destruct s as [|c s]; cbn [Re.tech_match_at]; [discriminate |].
  destruct (Re.at_boundary prev (String c s) && Char.is_ascii_letter c) eqn:Hc;
    [| discriminate].
  apply andb_true_iff in Hc as [Hb _].
  destruct (Re.tech_tail c 0 s) as [t|] eqn:Ht; [| discriminate].
  intros [= <-]. destruct (tech_tail_prefix _ _ _ _ Ht) as (rest & -> & Hb').
  exists rest. rewrite append_cons. auto.
Qed.

(** Every match [re.findall] reports for the technical-token pattern is a
    piece of the text between two word boundaries. *)
Lemma findall_tech_from_occurs (m s : string) : forall prev skip,
  m ∈ Re.findall_tech_from prev skip s ->
  exists pre post,
    s = pre ++ m ++ post
    /\ Re.at_boundary (Str.last prev pre) (m ++ post) = true
    /\ Re.at_boundary (Str.last prev (pre ++ m)) post = true.
Proof.
  assert (Hshift : forall c t prev,
    (exists pre post, t = pre ++ m ++ post
       /\ Re.at_boundary (Str.last (Some c) pre) (m ++ post) = true
       /\ Re.at_boundary (Str.last (Some c) (pre ++ m)) post = true) ->
    exists pre post, String c t = pre ++ m ++ post
       /\ Re.at_boundary (Str.last prev pre) (m ++ post) = true
       /\ Re.at_boundary (Str.last prev (pre ++ m)) post = true).
  { intros c t prev (pre & post & -> & Hb1 & Hb2).
    exists (String c pre), post. rewrite !append_cons. cbn [Str.last]. auto. }
  induction s as [|c s IH]; intros prev skip; cbn [Re.findall_tech_from].
  - intros H. inversion H.
  - destruct skip as [|k].
    + destruct (Re.tech_match_at prev (String c s)) as [tok|] eqn:Ht.
      * intros [-> | H]%elem_of_cons.
        -- destruct (tech_match_at_prefix _ _ _ Ht) as (rest & Hs & Hb1 & Hb2).
           exists "", rest. rewrite !append_nil_l. auto.
        -- apply Hshift. eapply IH, H.
      * intros H. apply Hshift. eapply IH, H.
    + intros H. apply Hshift. eapply IH, H.
Qed.

Lemma findall_tech_occurs (m s : string) :
  m ∈ Re.findall_tech s -> occurs_as_word m s.
Proof. apply findall_tech_from_occurs. Qed.






Lemma occurs_as_word_forallb (p : ascii -> bool) (m s : string) :
  occurs_as_word m s -> Str.forallb p s = true -> Str.forallb p m = true.
Proof.
  intros (pre & post & -> & _). rewrite !forallb_append.
  intros [_ [H _]%andb_true_iff]%andb_true_iff. exact H.
Qed.

(** ** Whole-word matching of the dictionary terms *)



(** ** What the normalised text is made of *)

Lemma forallb_impl (p q : ascii -> bool) (s : string) :
  (forall c, p c = true -> q c = true) ->
  Str.forallb p s = true -> Str.forallb q s = true.
Proof.
  intros Hpq. induction s as [|c s IH]; [reflexivity |]. cbn [Str.forallb].
  intros [Hc Hs]%andb_true_iff. rewrite (Hpq c Hc), (IH Hs). reflexivity.
Qed.

Lemma forallb_map (p : ascii -> bool) (f : ascii -> ascii) (s : string) :
  Str.forallb p (Str.map f s) = Str.forallb (fun c => p (f c)) s.
Proof.
  induction s as [|c s IH]; [reflexivity |]. cbn [Str.map Str.forallb].
  rewrite IH. reflexivity.
Qed.

Lemma forallb_lstrip (p : ascii -> bool) (s : string) :
  Str.forallb p s = true -> Str.forallb p (Str.lstrip s) = true.
Proof.
  induction s as [|c s IH]; [reflexivity |]. cbn [Str.lstrip].
  destruct (Char.is_space c); [| auto]. cbn [Str.forallb].
  intros [_ Hs]%andb_true_iff. auto.
Qed.

Lemma forallb_rstrip (p : ascii -> bool) (s : string) :
  Str.forallb p s = true -> Str.forallb p (Str.rstrip s) = true.
Proof.
  induction s as [|c s IH]; [reflexivity |]. cbn [Str.rstrip Str.forallb].
  intros [Hc Hs]%andb_true_iff.
  destruct (Char.is_space c && Str.is_empty (Str.rstrip s)); [reflexivity |].
  cbn [Str.forallb]. rewrite Hc, (IH Hs). reflexivity.
Qed.

(** Every character of a normalised text is a word character, a whitespace
    character, a full stop or a hyphen. *)
Lemma preprocess_text_characters (t : string) :
  Str.forallb (fun c => negb (Char.is_punctuation c)) (preprocess_text t) = true.
Proof.
  unfold preprocess_text. destruct (Str.is_empty t); [reflexivity |].
  apply forallb_rstrip, forallb_lstrip. unfold sub_class at 1.
  rewrite forallb_map. generalize (sub_space_runs false (sub_class Char.is_line_break t)).
  intros s. induction s as [|c s IH]; [reflexivity |]. cbn [Str.forallb].
  rewrite IH, andb_true_r.
  destruct (Char.is_punctuation c) eqn:Hc; [reflexivity | rewrite Hc; reflexivity].
Qed.

Lemma slash_is_punctuation (c : ascii) :
  negb (Char.is_punctuation c) = true -> negb (is_slash (Char.lower c)) = true.
Proof. each_character c. Qed.

Lemma slash_lower (c : ascii) :
  negb (is_slash c) = true -> negb (is_slash (Char.lower c)) = true.
Proof. each_character c. Qed.

(** Neither the normalised text nor its lowered form holds a slash. *)
Lemma preprocess_text_no_slash (t : string) :
  Str.forallb (fun c => negb (is_slash c)) (preprocess_text t) = true
  /\ Str.forallb (fun c => negb (is_slash c)) (Str.lower (preprocess_text t)) = true.
Proof.
  pose proof (preprocess_text_characters t) as H. split.
  - revert H. apply forallb_impl. intros c. each_character c.
  - unfold Str.lower. rewrite forallb_map. revert H. apply forallb_impl.
    apply slash_is_punctuation.
Qed.

(** C10. ["ci/cd"] is a dictionary term, and [extract_skills] returns it
    for no text: the dictionary loop cannot find it, because the normalised
    text holds no slash, and no technical token holds one either. *)
Theorem ci_cd_never_extracted (t : string) :
  "ci/cd" ∈ ALL_SKILLS
  /\ ("ci/cd" ∉ dictionary_hits (Str.lower (text (ResumeParser_init t))))
  /\ ("ci/cd" ∉ extract_skills (ResumeParser_init t)).
Proof.
  destruct (preprocess_text_no_slash t) as [Hraw Hlow].
  assert (Hdict : not (occurs_as_word "ci/cd" (Str.lower (preprocess_text t)))).
  { intros H. apply (occurs_as_word_forallb _ _ _ H) in Hlow. discriminate Hlow. }
  split; [refine (bool_decide_unpack _ _); vm_compute; exact I |]. split.
  - intros [_ Hs]%elem_of_dictionary_hits. apply Hdict, search_word_occurs, Hs.
  - intros [_ [[_ Hs] | (m & Hm & _ & Heq)]]%elem_of_extract_skills.
    + apply Hdict, search_word_occurs, Hs.
    + apply findall_tech_occurs in Hm. cbn [text ResumeParser_init] in Hm.
      apply (occurs_as_word_forallb _ _ _ Hm) in Hraw.
      apply (forallb_impl _ (fun c => negb (is_slash (Char.lower c))) _ slash_lower) in Hraw.
      rewrite <- (forallb_map (fun c => negb (is_slash c)) Char.lower) in Hraw.
      fold (Str.lower m) in Hraw.
      rewrite <- Heq in Hraw. discriminate Hraw.
Qed.

(** ** The skill score *)

(** C7, as stated, fails: with 23 of 160 required skills matched the code
    computes [(23 / 160) * 100 = 14.374999999999998] and returns [14.37],
    whereas [100 * 23 / 160 = 14.375] rounds to [14.38], in double precision
    as well as exactly (1437.5 hundredths, ties to even). *)
Lemma skill_score_departs_from_spec_formula :
  exists score matched,
    score_resume_by_skills resume_23 skills_160 = Ok (score, matched)
    /\ size matched = 23%nat
    /\ size (list_to_set (List.map Str.lower skills_160) : gset string) = 160%nat
    /\ score = 14.37%float
    /\ spec_percentage 23 160 = 14.38%float
    /\ Float.round_half_even (100 * 23 * 100) 160 = 1438%Z
    /\ score <> spec_percentage 23 160.
Proof.
  eexists _, _. split.
  { apply score_resume_by_skills_nonempty. discriminate. }
  cbv zeta.
  split; [vm_compute; reflexivity |].
  split; [vm_compute; reflexivity |].
  split; [vm_compute; reflexivity |].
  split; [vm_compute; reflexivity |].
  split; [vm_compute; reflexivity |].
  intros H. apply (f_equal (fun x => PrimFloat.eqb x 14.37)) in H.
  vm_compute in H. discriminate H.
Qed.

(** C7, amended. On an empty list of required skills the result is
    [(0.0, set())].  Otherwise the matched set holds the lowered required
    skills that occur in the lowered, normalised resume as whole words, and
    the score is [round((|matched| / |unique|) * 100, 2)] with the quotient
    taken first, [unique] being the set of the lowered required skills.  On
    ["I use Python and SQL daily"] and [["python", "java"]] the result is
    [(50.0, {"python"})]. *)
Theorem skill_score_is_rounded_ratio :
  (forall resume_text, score_resume_by_skills resume_text [] = Ok (0%float, ∅))
  /\ (forall resume_text job_skills,
        job_skills <> [] ->
        exists matched : gset string,
          score_resume_by_skills resume_text job_skills =
            Ok (Float.round2
                  (Float.of_nat (size matched)
                   / Float.of_nat
                       (size (list_to_set (List.map Str.lower job_skills) : gset string))
                   * 100)%float,
                matched)
          /\ forall s,
               s ∈ matched
               <-> s ∈ List.map Str.lower job_skills
                   /\ occurs_as_word s (Str.lower (preprocess_text resume_text)))
  /\ score_resume_by_skills "I use Python and SQL daily" ["python"; "java"]
     = Ok (50%float, {[ "python" ]}).
Proof.
  split; [reflexivity | split].
  - intros resume_text job_skills Hne.
    exists (matched_in (Str.lower (preprocess_text resume_text))
                       (List.map Str.lower job_skills)).
    split; [apply score_resume_by_skills_nonempty, Hne |].
    intros s. rewrite elem_of_matched_in, search_word_occurs. reflexivity.
  - vm_compute. reflexivity.
Qed.

Lemma skill_score_is_rounded_ratio_witness :
  ["Python"; "Pandas"; "SQL"] <> []
  /\ exists matched : gset string,
       score_resume_by_skills "Built dashboards using Python and Pandas"
         ["Python"; "Pandas"; "SQL"] =
         Ok (Float.round2
               (Float.of_nat (size matched)
                / Float.of_nat
                    (size (list_to_set (List.map Str.lower ["Python"; "Pandas"; "SQL"])
                          : gset string))
                * 100)%float,
             matched)
       /\ forall s,
            s ∈ matched
            <-> s ∈ List.map Str.lower ["Python"; "Pandas"; "SQL"]
                /\ occurs_as_word s
                     (Str.lower (preprocess_text "Built dashboards using Python and Pandas")).
Proof.
  split; [discriminate |].
  apply (proj1 (proj2 skill_score_is_rounded_ratio)
           "Built dashboards using Python and Pandas" ["Python"; "Pandas"; "SQL"]).
  discriminate.
Defined.

(** Two of three required skills matched score [66.67]. *)
Example two_of_three :
  score_resume_by_skills "Built dashboards using Python and Pandas"
    ["Python"; "Pandas"; "SQL"] = Ok (66.67%float, {[ "python"; "pandas" ]}).
Proof. vm_compute. reflexivity. Qed.

(** * Further properties of the code *)

(** ** Stripping *)

Lemma last_nonempty (c : ascii) (s : string) (prev : option ascii) :
  Str.last prev (String c s) = Str.last None (String c s).
Proof. reflexivity. Qed.

Lemma lstrip_starts_clean (s : string) : starts_clean (Str.lstrip s) = true.
Proof.
  induction s as [|c s IH]; [reflexivity |]. cbn [Str.lstrip].
  destruct (Char.is_space c) eqn:Hc; [exact IH |].
  unfold starts_clean. cbn [Str.head]. rewrite Hc. reflexivity.
Qed.

Lemma lstrip_id (s : string) : starts_clean s = true -> Str.lstrip s = s.
Proof.
  destruct s as [|c s]; [reflexivity |]. unfold starts_clean. cbn [Str.head Str.lstrip].
  destruct (Char.is_space c); [discriminate | reflexivity].
Qed.

Lemma rstrip_ends_clean (s : string) : ends_clean (Str.rstrip s) = true.
Proof.
  induction s as [|c s IH]; [reflexivity |]. cbn [Str.rstrip].
  destruct (Char.is_space c && Str.is_empty (Str.rstrip s)) eqn:Hc; [reflexivity |].
  destruct (Str.rstrip s) as [|d r] eqn:Hr.
  - unfold ends_clean. cbn [Str.last]. rewrite andb_true_r in Hc. rewrite Hc. reflexivity.
  - unfold ends_clean in *. cbn [Str.last] in *. exact IH.
Qed.

Lemma rstrip_id (s : string) : ends_clean s = true -> Str.rstrip s = s.
Proof.
  induction s as [|c s IH]; [reflexivity |]. intros H. cbn [Str.rstrip].
  destruct s as [|d s].
  - unfold ends_clean in H. cbn [Str.last] in H. cbn [Str.rstrip Str.is_empty].
    rewrite andb_true_r. destruct (Char.is_space c); [discriminate | reflexivity].
  - rewrite IH by exact H. cbn [Str.is_empty]. rewrite andb_false_r. reflexivity.
Qed.

Lemma rstrip_starts_clean (s : string) :
  starts_clean s = true -> starts_clean (Str.rstrip s) = true.
Proof.
  destruct s as [|c s]; [reflexivity |]. unfold starts_clean. cbn [Str.head Str.rstrip].
  intros H. destruct (Char.is_space c && Str.is_empty (Str.rstrip s)); [reflexivity |].
  cbn [Str.head]. exact H.
Qed.

Lemma strip_clean (s : string) :
  starts_clean (Str.strip s) = true /\ ends_clean (Str.strip s) = true.
Proof.
  unfold Str.strip. split.
  - apply rstrip_starts_clean, lstrip_starts_clean.
  - apply rstrip_ends_clean.
Qed.

Lemma strip_id (s : string) :
  starts_clean s = true -> ends_clean s = true -> Str.strip s = s.
Proof. intros H1 H2. unfold Str.strip. rewrite (lstrip_id s H1). apply rstrip_id, H2. Qed.

Lemma strip_idempotent (s : string) : Str.strip (Str.strip s) = Str.strip s.
Proof. apply strip_id; apply strip_clean. Qed.

Lemma rstrip_empty (s : string) :
  Str.rstrip s = "" <-> Str.forallb Char.is_space s = true.
Proof.
  induction s as [|c s IH]; [split; reflexivity |]. cbn [Str.rstrip Str.forallb].
  destruct (Char.is_space c); cbn [andb].
  - rewrite <- IH. destruct (Str.rstrip s); cbn [Str.is_empty]; split; congruence.
  - split; discriminate.
Qed.

Lemma forallb_space_lstrip (s : string) :
  Str.forallb Char.is_space (Str.lstrip s) = Str.forallb Char.is_space s.
Proof.
  induction s as [|c s IH]; [reflexivity |]. cbn [Str.lstrip].
  destruct (Char.is_space c) eqn:Hc; cbn [Str.forallb]; rewrite Hc; [exact IH | reflexivity].
Qed.

Lemma strip_empty (s : string) :
  Str.strip s = "" <-> Str.forallb Char.is_space s = true.
Proof. unfold Str.strip. rewrite rstrip_empty, forallb_space_lstrip. reflexivity. Qed.

(** ** The normalised text *)

Lemma forallb_sub_space_runs (p : ascii -> bool) (s : string) : forall in_run,
  p " "%char = true ->
  Str.forallb (fun c => Char.is_space c || p c) s = true ->
  Str.forallb p (sub_space_runs in_run s) = true.
Proof.
  induction s as [|c s IH]; intros in_run Hsp; [reflexivity |].
  cbn [sub_space_runs Str.forallb]. intros [Hc Hs]%andb_true_iff.
  destruct (Char.is_space c) eqn:Hspace.
  - destruct in_run; [| cbn [Str.forallb]; rewrite Hsp; cbn [andb]];
      apply IH; assumption.
  - cbn [Str.forallb]. cbn [orb] in Hc. rewrite Hc. cbn [andb].
    apply IH; assumption.
Qed.

Lemma forallb_true (p : ascii -> bool) (s : string) :
  (forall c, p c = true) -> Str.forallb p s = true.
Proof.
  intros H. induction s as [|c s IH]; [reflexivity |]. cbn [Str.forallb].
  rewrite H, IH. reflexivity.
Qed.

Lemma forallb_ext (p q : ascii -> bool) (s : string) :
  (forall c, p c = q c) -> Str.forallb p s = Str.forallb q s.
Proof.
  intros H. induction s as [|c s IH]; [reflexivity |]. cbn [Str.forallb].
  rewrite H, IH. reflexivity.
Qed.

Lemma normal_after_punctuation (c : ascii) :
  (negb (Char.is_space c) || Char.is_code 32 c) = true ->
  is_normal_char (if Char.is_punctuation c then " "%char else c) = true.
Proof. each_character c. Qed.

(** X1. Every character of a normalised text is a word character, a plain
    space, a full stop or a hyphen: it holds no tab, no line break and no
    other whitespace. *)
Theorem preprocess_text_alphabet (t : string) :
  Str.forallb is_normal_char (preprocess_text t) = true.
Proof.
  unfold preprocess_text. destruct (Str.is_empty t); [reflexivity |].
  apply forallb_rstrip, forallb_lstrip. unfold sub_class at 1. rewrite forallb_map.
  apply (forallb_impl (fun c => negb (Char.is_space c) || Char.is_code 32 c));
    [exact normal_after_punctuation |].
  apply forallb_sub_space_runs; [reflexivity |].
  apply forallb_true. intros c. destruct (Char.is_space c); reflexivity.
Qed.

Lemma preprocess_text_stripped_start (t : string) :
  starts_clean (preprocess_text t) = true.
Proof.
  unfold preprocess_text. destruct (Str.is_empty t); [reflexivity |]. apply strip_clean.
Qed.

Lemma preprocess_text_stripped_end (t : string) :
  ends_clean (preprocess_text t) = true.
Proof.
  unfold preprocess_text. destruct (Str.is_empty t); [reflexivity |]. apply strip_clean.
Qed.

(** X2. A normalised text neither starts nor ends with a whitespace
    character. *)
Theorem preprocess_text_stripped (t : string) :
  (forall c, Str.head (preprocess_text t) = Some c -> Char.is_space c = false)
  /\ (forall c, Str.last None (preprocess_text t) = Some c -> Char.is_space c = false)
  /\ Str.strip (preprocess_text t) = preprocess_text t.
Proof.
  pose proof (preprocess_text_stripped_start t) as H1.
  pose proof (preprocess_text_stripped_end t) as H2. split; [| split].
  - intros c Hc. unfold starts_clean in H1. rewrite Hc in H1.
    apply negb_true_iff, H1.
  - intros c Hc. unfold ends_clean in H2. rewrite Hc in H2.
    apply negb_true_iff, H2.
  - apply strip_id; assumption.
Qed.

Lemma space_after_punctuation (c : ascii) :
  Char.is_space (if Char.is_punctuation c then " "%char else c) = is_blank_char c.
Proof. each_character c. Qed.

Lemma blank_after_line_break (c : ascii) :
  is_blank_char (if Char.is_line_break c then " "%char else c) = is_blank_char c.
Proof. each_character c. Qed.

Lemma space_is_blank (c : ascii) : Char.is_space c = true -> is_blank_char c = true.
Proof. unfold is_blank_char. intros ->. reflexivity. Qed.

Lemma forallb_blank_sub_space_runs (s : string) : forall in_run,
  Str.forallb is_blank_char (sub_space_runs in_run s) = Str.forallb is_blank_char s.
Proof.
  induction s as [|c s IH]; intros in_run; [reflexivity |].
  cbn [sub_space_runs Str.forallb]. destruct (Char.is_space c) eqn:Hc.
  - rewrite (space_is_blank c Hc). destruct in_run; [apply IH |].
    cbn [Str.forallb]. rewrite IH. reflexivity.
  - cbn [Str.forallb]. rewrite IH. reflexivity.
Qed.

(** The whitespace test on the text as it is before the final strip is the
    blank test on the text as it came. *)
Lemma forallb_space_before_strip (t : string) :
  Str.forallb Char.is_space
    (sub_class Char.is_punctuation
       (sub_space_runs false (sub_class Char.is_line_break t)))
  = Str.forallb is_blank_char t.
Proof.
  unfold sub_class. rewrite forallb_map.
  rewrite (forallb_ext _ is_blank_char _ space_after_punctuation).
  rewrite forallb_blank_sub_space_runs, forallb_map.
  apply forallb_ext, blank_after_line_break.
Qed.

Lemma preprocess_text_blank (t : string) :
  Str.forallb is_blank_char t = true -> preprocess_text t = "".
Proof.
  intros H. unfold preprocess_text. destruct (Str.is_empty t); [reflexivity |].
  apply strip_empty. rewrite forallb_space_before_strip. exact H.
Qed.

(** X3. The normalised text is empty exactly when the text holds nothing
    but whitespace and punctuation (no word character, full stop or
    hyphen). *)
Theorem preprocess_text_empty_iff (t : string) :
  preprocess_text t = "" <-> Str.forallb is_blank_char t = true.
Proof.
  split; [| apply preprocess_text_blank].
  unfold preprocess_text. destruct (Str.is_empty t) eqn:He.
  - apply is_empty_true in He as ->. reflexivity.
  - rewrite strip_empty, forallb_space_before_strip. auto.
Qed.

(** ** Normalising a text that holds no punctuation *)

Lemma code_32_space (c : ascii) : Char.is_code 32 c = true -> c = " "%char.
Proof. each_character c. Qed.

Lemma space_not_punctuation (c : ascii) :
  Char.is_space c = true -> Char.is_punctuation c = false.
Proof. each_character c. Qed.

Lemma line_break_is_space (c : ascii) :
  Char.is_space c = false -> Char.is_line_break c = false.
Proof. each_character c. Qed.

Lemma no_punctuation_after_line_break (c : ascii) :
  negb (Char.is_punctuation c) = true ->
  negb (Char.is_punctuation (if Char.is_line_break c then " "%char else c)) = true.
Proof. each_character c. Qed.

Lemma tidy_sub_space_runs (s : string) :
  Str.forallb (fun c => negb (Char.is_punctuation c)) s = true ->
  forall b, tidy b (sub_space_runs b s) = true.
Proof.
  induction s as [|c s IH]; [reflexivity |]. cbn [Str.forallb sub_space_runs].
  intros [Hc Hs]%andb_true_iff b. destruct (Char.is_space c) eqn:Hsp.
  - destruct b; [apply IH, Hs |].
    change (tidy false (String " " (sub_space_runs true s)))
      with (true && tidy true (sub_space_runs true s)).
    apply IH, Hs.
  - cbn [tidy]. rewrite Hsp, Hc. apply IH, Hs.
Qed.

Lemma tidy_no_punctuation (s : string) : forall b,
  tidy b s = true -> sub_class Char.is_punctuation s = s.
Proof.
  unfold sub_class. induction s as [|c s IH]; intros b; [reflexivity |].
  cbn [tidy Str.map]. destruct (Char.is_space c) eqn:Hsp.
  - intros [_ H]%andb_true_iff. rewrite (space_not_punctuation c Hsp), (IH _ H).
    reflexivity.
  - intros [Hc H]%andb_true_iff. apply negb_true_iff in Hc. rewrite Hc, (IH _ H).
    reflexivity.
Qed.

Lemma tidy_no_line_break (s : string) : forall b,
  tidy b s = true -> sub_class Char.is_line_break s = s.
Proof.
  unfold sub_class. induction s as [|c s IH]; intros b; [reflexivity |].
  cbn [tidy Str.map]. destruct (Char.is_space c) eqn:Hsp.
  - intros [[Hc _]%andb_true_iff H]%andb_true_iff.
    apply code_32_space in Hc as ->. rewrite (IH _ H). reflexivity.
  - intros [_ H]%andb_true_iff. rewrite (line_break_is_space c Hsp), (IH _ H).
    reflexivity.
Qed.

Lemma tidy_no_space_runs (s : string) : forall b b',
  tidy b s = true -> b = true \/ b' = false -> sub_space_runs b' s = s.
Proof.
  induction s as [|c s IH]; intros b b'; [reflexivity |].
  cbn [tidy sub_space_runs]. destruct (Char.is_space c) eqn:Hsp.
  - intros [[Hc Hb]%andb_true_iff H]%andb_true_iff [-> | ->]; [discriminate |].
    apply code_32_space in Hc as ->. rewrite (IH true true H); auto.
  - intros [_ H]%andb_true_iff _. rewrite (IH false false H); auto.
Qed.

Lemma tidy_starts_clean (s : string) : tidy true s = true -> starts_clean s = true.
Proof.
  destruct s as [|c s]; [reflexivity |]. unfold starts_clean. cbn [tidy Str.head].
  destruct (Char.is_space c); [rewrite andb_false_r; discriminate | reflexivity].
Qed.

Lemma tidy_lstrip (s : string) (b : bool) :
  tidy b s = true -> tidy true (Str.lstrip s) = true.
Proof.
  destruct s as [|c s]; [reflexivity |]. cbn [tidy Str.lstrip].
  destruct (Char.is_space c) eqn:Hsp.
  - intros [_ H]%andb_true_iff. rewrite (lstrip_id s (tidy_starts_clean s H)). exact H.
  - cbn [tidy]. rewrite Hsp. auto.
Qed.

Lemma tidy_rstrip (s : string) : forall b,
  tidy b s = true -> tidy b (Str.rstrip s) = true.
Proof.
  induction s as [|c s IH]; intros b; [reflexivity |]. cbn [tidy Str.rstrip].
  destruct (Char.is_space c && Str.is_empty (Str.rstrip s)); [reflexivity |].
  cbn [tidy]. destruct (Char.is_space c).
  - intros [Hc H]%andb_true_iff. rewrite Hc, (IH _ H). reflexivity.
  - intros [Hc H]%andb_true_iff. rewrite Hc, (IH _ H). reflexivity.
Qed.

(** A text that is tidy from its first to its last character is its own
    normal form. *)
Lemma preprocess_text_tidy (s : string) :
  tidy true s = true -> ends_clean s = true -> preprocess_text s = s.
Proof.
  intros Ht He. unfold preprocess_text. destruct (Str.is_empty s) eqn:Hs.
  - apply is_empty_true in Hs. congruence.
  - rewrite (tidy_no_line_break s true Ht), (tidy_no_space_runs s true false Ht),
      (tidy_no_punctuation s true Ht) by auto.
    apply strip_id; [apply tidy_starts_clean, Ht | exact He].
Qed.

(** X4. On a text that holds no punctuation the normaliser is idempotent;
    as every normalised text is such a text, a second pass always reaches
    a text that further passes leave as it is. *)
Theorem preprocess_text_idempotent_without_punctuation :
  (forall t,
      Str.forallb (fun c => negb (Char.is_punctuation c)) t = true ->
      preprocess_text (preprocess_text t) = preprocess_text t)
  /\ (forall t,
        preprocess_text (preprocess_text (preprocess_text t))
        = preprocess_text (preprocess_text t)).
Proof.
  assert (H : forall t,
    Str.forallb (fun c => negb (Char.is_punctuation c)) t = true ->
    preprocess_text (preprocess_text t) = preprocess_text t).
  { intros t Ht. apply preprocess_text_tidy.
    - unfold preprocess_text. destruct (Str.is_empty t); [reflexivity |].
      assert (Hu : tidy false (sub_space_runs false (sub_class Char.is_line_break t)) = true).
      { apply tidy_sub_space_runs. unfold sub_class. rewrite forallb_map.
        revert Ht. apply forallb_impl, no_punctuation_after_line_break. }
      rewrite (tidy_no_punctuation _ _ Hu). unfold Str.strip.
      apply tidy_rstrip, (tidy_lstrip _ false), Hu.
    - apply preprocess_text_stripped_end. }
  split; [exact H |]. intros t. apply H, preprocess_text_characters.
Qed.

(** ** The list of extracted skills *)

Lemma extract_skills_NoDup (self : ResumeParser) : NoDup (extract_skills self).
Proof.
  unfold extract_skills. destruct (Str.is_empty (text self)); [constructor |].
  unfold sorted_list. rewrite merge_sort_Permutation. apply NoDup_elements.
Qed.

(** X5. [extract_skills] returns its skills in ascending order and without
    repetition. *)
Theorem extract_skills_sorted (self : ResumeParser) :
  StronglySorted String.le (extract_skills self) /\ NoDup (extract_skills self).
Proof.
  split; [| apply extract_skills_NoDup].
  unfold extract_skills. destruct (Str.is_empty (text self)); [constructor |].
  unfold sorted_list. apply StronglySorted_merge_sort; apply _.
Qed.

Lemma no_punctuation_lower (c : ascii) :
  negb (Char.is_punctuation c) = true ->
  negb (Char.is_punctuation (Char.lower c)) = true.
Proof. each_character c. Qed.

Lemma forallb_no_punctuation_lower (s : string) :
  Str.forallb (fun c => negb (Char.is_punctuation c)) s = true ->
  Str.forallb (fun c => negb (Char.is_punctuation c)) (Str.lower s) = true.
Proof.
  unfold Str.lower. rewrite forallb_map. apply forallb_impl, no_punctuation_lower.
Qed.

(** X6. Every skill extracted from a text is in lower case and holds no
    punctuation other than the full stop and the hyphen; so the dictionary
    term ["c++"] is extracted from no text. *)
Theorem extracted_skills_alphabet :
  (forall t s,
      s ∈ extract_skills (ResumeParser_init t) ->
      Str.lower s = s
      /\ Str.forallb (fun c => negb (Char.is_punctuation c)) s = true)
  /\ (forall t, "c++" ∈ ALL_SKILLS /\ ("c++" ∉ extract_skills (ResumeParser_init t))).
Proof.
  assert (H : forall t s,
    s ∈ extract_skills (ResumeParser_init t) ->
    Str.lower s = s /\ Str.forallb (fun c => negb (Char.is_punctuation c)) s = true).
  { intros t s Hs. split; [apply (extract_skills_lower s _ Hs) |].
    pose proof (preprocess_text_characters t) as Ht.
    apply elem_of_extract_skills in Hs as [_ [[Hd Hs] | (m & Hm & _ & ->)]];
      cbn [text ResumeParser_init] in *.
    - rewrite (ALL_SKILLS_lower s Hd) in Hs. apply search_word_occurs in Hs.
      apply (occurs_as_word_forallb _ _ _ Hs), forallb_no_punctuation_lower, Ht.
    - apply forallb_no_punctuation_lower.
      apply (occurs_as_word_forallb _ _ _ (findall_tech_occurs _ _ Hm)), Ht. }
  split; [exact H |]. intros t.
  split; [refine (bool_decide_unpack _ _); vm_compute; exact I |].
  intros Hs. apply H in Hs as [_ Hs]. discriminate Hs.
Qed.

Lemma empty_not_skill : "" ∉ ALL_SKILLS.
Proof. refine (bool_decide_unpack _ _). vm_compute. exact I. Qed.

Lemma occurs_as_word_in_empty (p : string) : occurs_as_word p "" -> p = "".
Proof.
  intros (pre & post & H & _). destruct pre; [| discriminate].
  rewrite append_nil_l in H. destruct p; [reflexivity | discriminate].
Qed.

(** X7. A dictionary term that occurs in the lowered, normalised text
    between two word boundaries is extracted. *)
Theorem dictionary_terms_found_when_present (t d : string) :
  d ∈ ALL_SKILLS ->
  occurs_as_word d (Str.lower (preprocess_text t)) ->
  d ∈ extract_skills (ResumeParser_init t).
Proof.
  intros Hd Ho. apply elem_of_extract_skills. cbn [text ResumeParser_init]. split.
  - intros He. rewrite He in Ho. apply occurs_as_word_in_empty in Ho.
    subst d. exact (empty_not_skill Hd).
  - left. split; [exact Hd |]. rewrite (ALL_SKILLS_lower d Hd).
    apply search_word_occurs, Ho.
Qed.

Lemma findall_tech_from_letter (m s : string) : forall prev skip,
  m ∈ Re.findall_tech_from prev skip s ->
  exists c rest, m = String c rest /\ Char.is_ascii_letter c = true.
Proof.
  induction s as [|c s IH]; intros prev skip; cbn [Re.findall_tech_from].
  - intros H. inversion H.
  - destruct skip as [|k]; [| apply IH].
    destruct (Re.tech_match_at prev (String c s)) as [tok|] eqn:Ht; [| apply IH].
    intros [-> | H]%elem_of_cons; [| eapply IH, H].
    cbn [Re.tech_match_at] in Ht.
    destruct (Re.at_boundary prev (String c s) && Char.is_ascii_letter c) eqn:Hc;
      [| discriminate].
    apply andb_true_iff in Hc as [_ Hc].
    destruct (Re.tech_tail c 0 s) as [tl|]; [| discriminate].
    injection Ht as <-. eauto.
Qed.

Lemma lower_letter (c : ascii) :
  Char.is_ascii_letter c = true -> is_lower_letter (Char.lower c) = true.
Proof. each_character c. Qed.

Lemma length_lower (s : string) : String.length (Str.lower s) = String.length s.
Proof.
  unfold Str.lower. induction s as [|c s IH]; [reflexivity |].
  cbn [Str.map String.length]. rewrite IH. reflexivity.
Qed.

Lemma stop_tokens_not_skills (s : string) : s ∈ STOP_TOKENS -> s ∉ ALL_SKILLS.
Proof.
  assert (H : List.forallb (fun s => negb (bool_decide (s ∈ ALL_SKILLS))) STOP_TOKENS = true)
    by (vm_compute; reflexivity).
  rewrite List.forallb_forall in H. intros Hs%list_elem_of_In.
  apply H, negb_true_iff, bool_decide_eq_false in Hs. exact Hs.
Qed.

(** X8. No extracted skill is one of the stop tokens, and an extracted
    skill that is not a dictionary term has three characters or more and
    begins with a letter [a]..[z]. *)
Theorem extracted_skills_shape (t s : string) :
  s ∈ extract_skills (ResumeParser_init t) ->
  (s ∉ STOP_TOKENS)
  /\ (s ∈ ALL_SKILLS
      \/ ((3 <= String.length s)%nat
          /\ exists c rest, s = String c rest /\ is_lower_letter c = true)).
Proof.
  intros [_ [[Hd _] | (m & Hm & Hk & ->)]]%elem_of_extract_skills.
  - split; [| left; exact Hd]. intros Hs. exact (stop_tokens_not_skills s Hs Hd).
  - unfold keep_token in Hk.
    apply andb_true_iff in Hk as [[Hlen Hstop]%andb_true_iff _].
    apply negb_true_iff, bool_decide_eq_false in Hstop. split; [exact Hstop |].
    right. rewrite length_lower. split; [apply Nat.ltb_lt in Hlen; lia |].
    destruct (findall_tech_from_letter _ _ _ _ Hm) as (c & rest & -> & Hc).
    exists (Char.lower c), (Str.lower rest). split; [reflexivity |].
    apply lower_letter, Hc.
Qed.

(** ** The skill scorer *)

Lemma matched_in_subset (resume_lower : string) (l : list string) :
  matched_in resume_lower l ⊆ list_to_set l.
Proof.
  intros s [Hs _]%elem_of_matched_in. apply elem_of_list_to_set, Hs.
Qed.

(** X9. [score_resume_by_skills] never raises: unless the list is empty
    the divisor, the number of distinct lowered required skills, is
    positive; and the matched skills are among them, so they are no more
    numerous. *)
Theorem skill_score_proper_fraction (resume_text : string) (job_skills : list string) :
  exists score matched,
    score_resume_by_skills resume_text job_skills = Ok (score, matched)
    /\ matched ⊆ list_to_set (List.map Str.lower job_skills)
    /\ (size matched
        <= size (list_to_set (List.map Str.lower job_skills) : gset string))%nat
    /\ (job_skills = []
        \/ (0 < size (list_to_set (List.map Str.lower job_skills) : gset string))%nat).
Proof.
  destruct (score_resume_by_skills_total resume_text job_skills) as (sc & m & H).
  exists sc, m. split; [exact H |].
  apply score_resume_by_skills_matched in H as ->.
  split; [apply matched_in_subset |].
  split; [apply subseteq_size, matched_in_subset |].
  destruct job_skills as [|j js]; [left; reflexivity | right].
  pose proof (size_lowered_skills j js). lia.
Qed.

(** X10. The result of [score_resume_by_skills] depends on the required
    skills only through the set of their lowered forms: their order, their
    repetitions and their letter case change neither the score nor the
    matched set. *)
Theorem skill_score_ignores_order_case_duplicates
    (resume_text : string) (job_skills job_skills' : list string) :
  (forall s, s ∈ List.map Str.lower job_skills <-> s ∈ List.map Str.lower job_skills') ->
  score_resume_by_skills resume_text job_skills
  = score_resume_by_skills resume_text job_skills'.
Proof.
  intros Hsame.
  destruct job_skills as [|j js], job_skills' as [|j' js'].
  - reflexivity.
  - assert (Hin : Str.lower j' ∈ List.map Str.lower (j' :: js')) by (cbn; left).
    apply Hsame in Hin. inversion Hin.
  - assert (Hin : Str.lower j ∈ List.map Str.lower (j :: js)) by (cbn; left).
    apply Hsame in Hin. inversion Hin.
  - rewrite !score_resume_by_skills_nonempty by discriminate. cbv zeta.
    assert (Hm : matched_in (Str.lower (preprocess_text resume_text))
                   (List.map Str.lower (j :: js))
                 = matched_in (Str.lower (preprocess_text resume_text))
                     (List.map Str.lower (j' :: js'))).
    { apply set_eq. intros s. rewrite !elem_of_matched_in, Hsame. reflexivity. }
    assert (Hu : (list_to_set (List.map Str.lower (j :: js)) : gset string)
                 = list_to_set (List.map Str.lower (j' :: js'))).
    { apply set_eq. intros s. rewrite !elem_of_list_to_set. apply Hsame. }
    rewrite Hm, Hu. reflexivity.
Qed.

Lemma search_word_in_empty (p : string) : Re.search_word p "" = false.
Proof. reflexivity. Qed.

Lemma matched_in_empty (l : list string) : matched_in "" l = ∅.
Proof.
  apply set_eq. intros s. rewrite elem_of_matched_in, search_word_in_empty.
  split; [intros [_ H]; discriminate | intros H; inversion H].
Qed.

Lemma extract_skills_blank (t : string) :
  preprocess_text t = "" -> extract_skills (ResumeParser_init t) = [].
Proof. intros H. unfold extract_skills. cbn [text ResumeParser_init]. rewrite H. reflexivity. Qed.

(** ** The aggregate on blank texts *)

(** X11. A job description that is not empty but holds only whitespace
    and punctuation does not take the empty-input branch: no job skill is
    extracted, the skill score is [0.0] with nothing matched, the resume
    skills are those of the resume, and the final score is
    [round(0.0 * skill_weight + text_score * text_weight, 2)]. *)
Theorem blank_job_description
    (tfidf_cosine : string -> string -> result float)
    (resume_text job_text : string) (skill_weight text_weight : float) :
  resume_text <> "" -> job_text <> "" ->
  Str.forallb is_blank_char job_text = true ->
  exists text_score,
    score_resume_by_text_similarity tfidf_cosine resume_text job_text = Ok text_score
    /\ calculate_final_resume_score tfidf_cosine resume_text job_text
         skill_weight text_weight =
       Ok {| Skill_Match_Score := 0;
             Text_Similarity_Score := text_score;
             Final_Resume_Score :=
               number_round2
                 (number_add (PyFloat (0 * skill_weight))
                             (number_mul text_score (PyFloat text_weight)));
             Matched_Skills := ∅;
             Job_Skills := [];
             Resume_Skills := extract_skills (ResumeParser_init resume_text) |}.
Proof.
  intros Hr Hj Hblank. apply preprocess_text_blank in Hblank.
  destruct (calculate_final_resume_score_nonempty tfidf_cosine resume_text job_text
              skill_weight text_weight Hr Hj) as (sc & m & ts & Hs & Ht & ->).
  rewrite (extract_skills_blank job_text Hblank) in Hs |- *.
  cbn [score_resume_by_skills] in Hs. injection Hs as <- <-.
  exists ts. split; [exact Ht | reflexivity].
Qed.

(** X12. A resume that is not empty but holds only whitespace and
    punctuation matches no skill and has no skill of its own, whatever the
    job description. *)
Theorem blank_resume
    (tfidf_cosine : string -> string -> result float)
    (resume_text job_text : string) (skill_weight text_weight : float) :
  resume_text <> "" -> job_text <> "" ->
  Str.forallb is_blank_char resume_text = true ->
  exists b,
    calculate_final_resume_score tfidf_cosine resume_text job_text
      skill_weight text_weight = Ok b
    /\ Matched_Skills b = ∅
    /\ Resume_Skills b = []
    /\ Job_Skills b = extract_skills (ResumeParser_init job_text).
Proof.
  intros Hr Hj Hblank. apply preprocess_text_blank in Hblank.
  destruct (calculate_final_resume_score_nonempty tfidf_cosine resume_text job_text
              skill_weight text_weight Hr Hj) as (sc & m & ts & Hs & _ & ->).
  eexists. split; [reflexivity |]. cbn.
  apply score_resume_by_skills_matched in Hs as ->. rewrite Hblank.
  split; [apply matched_in_empty |].
  split; [apply extract_skills_blank, Hblank | reflexivity].
Qed.

(** ** The weights *)

(** X13. The aggregate never raises, and the weights reach nothing but the
    final score: with other weights the two sub-scores, the matched skills
    and the two skill lists are the same. *)
Theorem weights_only_change_final_score
    (tfidf_cosine : string -> string -> result float)
    (resume_text job_text : string)
    (skill_weight text_weight skill_weight' text_weight' : float) :
  exists b b',
    calculate_final_resume_score tfidf_cosine resume_text job_text
      skill_weight text_weight = Ok b
    /\ calculate_final_resume_score tfidf_cosine resume_text job_text
         skill_weight' text_weight' = Ok b'
    /\ Skill_Match_Score b = Skill_Match_Score b'
    /\ Text_Similarity_Score b = Text_Similarity_Score b'
    /\ Matched_Skills b = Matched_Skills b'
    /\ Job_Skills b = Job_Skills b'
    /\ Resume_Skills b = Resume_Skills b'.
Proof.
  destruct (Str.is_empty resume_text || Str.is_empty job_text) eqn:He.
  - exists zero_bundle, zero_bundle. unfold calculate_final_resume_score.
    rewrite He. repeat split.
  - apply orb_false_iff in He as [Hr%is_empty_false Hj%is_empty_false].
    destruct (calculate_final_resume_score_nonempty tfidf_cosine resume_text job_text
                skill_weight text_weight Hr Hj) as (sc & m & ts & Hs & Ht & ->).
    destruct (calculate_final_resume_score_nonempty tfidf_cosine resume_text job_text
                skill_weight' text_weight' Hr Hj) as (sc' & m' & ts' & Hs' & Ht' & ->).
    rewrite Hs in Hs'. rewrite Ht in Ht'. injection Hs' as <- <-. injection Ht' as <-.
    eexists _, _. repeat split.
Qed.

(** ** The missing skills of [main] *)

Lemma map_lower_fixed (l : list string) :
  (forall s, s ∈ l -> Str.lower s = s) -> List.map Str.lower l = l.
Proof.
  induction l as [|x l IH]; intros H; [reflexivity |]. cbn [List.map].
  rewrite (H x) by left. rewrite IH; [reflexivity |].
  intros s Hs. apply H. right. exact Hs.
Qed.

Lemma set_map_lower_fixed (X : gset string) :
  (forall s, s ∈ X -> Str.lower s = s) -> set_map Str.lower X = X.
Proof.
  intros H. apply set_eq. intros s. rewrite elem_of_map. split.
  - intros (y & -> & Hy). rewrite (H y Hy). exact Hy.
  - intros Hs. exists s. split; [symmetry; apply H, Hs | exact Hs].
Qed.

(** X14. For every bundle the aggregate returns, the missing skills that
    [main] derives from it and the matched skills split the job skills in
    two: together they are the job skills, they share none, and their
    numbers add up to the length of the job-skill list. *)
Theorem missing_and_matched_partition
    (tfidf_cosine : string -> string -> result float)
    (resume_text job_text : string) (skill_weight text_weight : float) :
  exists b,
    calculate_final_resume_score tfidf_cosine resume_text job_text
      skill_weight text_weight = Ok b
    /\ missing_skills b ∪ Matched_Skills b = list_to_set (Job_Skills b)
    /\ missing_skills b ## Matched_Skills b
    /\ (size (missing_skills b) + size (Matched_Skills b) = length (Job_Skills b))%nat.
Proof.
  assert (Hpart : forall (J : list string) (M : gset string),
    NoDup J -> (forall s, s ∈ J -> Str.lower s = s) -> M ⊆ list_to_set J ->
    let missing : gset string := list_to_set (List.map Str.lower J) ∖ set_map Str.lower M in
    missing ∪ M = list_to_set J /\ missing ## M
    /\ (size missing + size M = length J)%nat).
  { intros J M Hnd HJ HM. cbv zeta. rewrite (map_lower_fixed J HJ).
    rewrite set_map_lower_fixed
      by (intros s Hs; apply HJ; apply (elem_of_list_to_set (C := gset string)), HM, Hs).
    assert (Hd : (list_to_set J ∖ M : gset string) ## M).
    { apply elem_of_disjoint. intros s [_ Hn]%elem_of_difference Hs. exact (Hn Hs). }
    assert (Hu : (list_to_set J ∖ M) ∪ M = (list_to_set J : gset string)).
    { apply set_eq. intros s. rewrite elem_of_union, elem_of_difference. split.
      - intros [[H _] | H]; [exact H | apply HM, H].
      - intros H. destruct (decide (s ∈ M)); [right | left; split]; assumption. }
    split; [exact Hu | split; [exact Hd |]].
    rewrite <- (size_union _ _ Hd), Hu. apply size_list_to_set, Hnd. }
  destruct (Str.is_empty resume_text || Str.is_empty job_text) eqn:He.
  - exists zero_bundle. unfold calculate_final_resume_score. rewrite He.
    split; [reflexivity |]. apply (Hpart [] ∅); [constructor | | apply empty_subseteq].
    intros s Hs. inversion Hs.
  - apply orb_false_iff in He as [Hr%is_empty_false Hj%is_empty_false].
    destruct (calculate_final_resume_score_nonempty tfidf_cosine resume_text job_text
                skill_weight text_weight Hr Hj) as (sc & m & ts & Hs & _ & ->).
    eexists. split; [reflexivity |].
    apply score_resume_by_skills_matched in Hs as ->.
    unfold missing_skills. cbn [Job_Skills Matched_Skills].
    pose proof (fun s => extract_skills_lower s (ResumeParser_init job_text)) as Hlow.
    apply Hpart; [apply extract_skills_NoDup | exact Hlow |].
    rewrite <- (map_lower_fixed _ Hlow) at 2. apply matched_in_subset.
Qed.

(** ** Text extraction from a PDF *)

Section PdfFacts.

Context {page : Type}.
Variable PyPDF2 : pdf_module page.

Lemma pages_text_raises (pages : list page) (p : page) (e : exception) :
  p ∈ pages -> page_extract_text PyPDF2 p = Raise e ->
  forall acc, exists e', pages_text PyPDF2 acc pages = Raise e'.
Proof.
  intros Hp He. induction pages as [|q pages IH]; [inversion Hp |].
  intros acc. cbn [pages_text].
  destruct (page_extract_text PyPDF2 q) as [o|e'] eqn:Hq; [| eexists; reflexivity].
  apply elem_of_cons in Hp as [-> | Hp]; [congruence |].
  cbn [bind]. destruct o as [t|]; [destruct (Str.is_empty t) |]; apply IH, Hp.
Qed.

Lemma read_pdf_stripped (pdf_file : uploaded_file) (text : string) :
  read_pdf PyPDF2 pdf_file = Ok text -> Str.strip text = text.
Proof.
  unfold read_pdf. destruct (file_read pdf_file) as [d|]; [| discriminate].
  destruct (file_seek pdf_file) as [u|]; [| discriminate].
  cbn [bind]. destruct (PdfReader PyPDF2 d) as [pages|]; [| discriminate].
  cbn [bind]. destruct (pages_text PyPDF2 "" pages) as [t|]; [| discriminate].
  cbn [bind]. intros [= <-]. apply strip_idempotent.
Qed.

End PdfFacts.

(** X15. [extract_text_from_pdf] raises exactly when [load_pdf_module]
    does (PyPDF2 can be neither imported nor installed), having shown what
    [load_pdf_module] showed.  Once the module is loaded it never raises:
    it returns a text without leading or trailing whitespace, and when
    reading or rewinding the file, opening the PDF or extracting the text
    of a page raises, it logs and shows the error and returns the empty
    string. *)
Theorem extract_text_from_pdf_raises_only_on_load
    {page : Type} (import_PyPDF2 : result (pdf_module page))
    (pip_install_PyPDF2 : result Z) (import_PyPDF2_again : result (pdf_module page))
    (pdf_file : uploaded_file) :
  let loaded := load_pdf_module import_PyPDF2 pip_install_PyPDF2 import_PyPDF2_again in
  let out :=
    extract_text_from_pdf import_PyPDF2 pip_install_PyPDF2 import_PyPDF2_again pdf_file in
  (forall e, snd loaded = Raise e -> out = (fst loaded, Raise e))
  /\ (forall PyPDF2, snd loaded = Ok PyPDF2 ->
        (exists text, snd out = Ok text /\ Str.strip text = text)
        /\ (forall e, file_read pdf_file = Raise e ->
              out = ((fst loaded ++ pdf_error_events e)%list, Ok ""))
        /\ (forall pdf_bytes e,
              file_read pdf_file = Ok pdf_bytes -> file_seek pdf_file = Raise e ->
              out = ((fst loaded ++ pdf_error_events e)%list, Ok ""))
        /\ (forall pdf_bytes e,
              file_read pdf_file = Ok pdf_bytes -> file_seek pdf_file = Ok tt ->
              PdfReader PyPDF2 pdf_bytes = Raise e ->
              out = ((fst loaded ++ pdf_error_events e)%list, Ok ""))
        /\ (forall pdf_bytes pages p e,
              file_read pdf_file = Ok pdf_bytes -> file_seek pdf_file = Ok tt ->
              PdfReader PyPDF2 pdf_bytes = Ok pages ->
              p ∈ pages -> page_extract_text PyPDF2 p = Raise e ->
              exists e', out = ((fst loaded ++ pdf_error_events e')%list, Ok ""))).
Proof.
  cbv zeta. unfold extract_text_from_pdf.
  destruct (load_pdf_module import_PyPDF2 pip_install_PyPDF2 import_PyPDF2_again)
    as [shown [m|e0]]; cbn [fst snd].
  2: { split; [intros e [= <-]; reflexivity | intros m; discriminate]. }
  split; [discriminate |]. intros PyPDF2 [= <-].
  split; [| split; [| split; [| split]]].
  - destruct (read_pdf m pdf_file) as [text|e] eqn:Hr; cbn [snd].
    + exists text. split; [reflexivity | apply (read_pdf_stripped m pdf_file), Hr].
    + exists "". split; reflexivity.
  - intros e He. unfold read_pdf. rewrite He. reflexivity.
  - intros d e Hd He. unfold read_pdf. rewrite Hd, He. reflexivity.
  - intros d e Hd Hs He. unfold read_pdf. rewrite Hd, Hs. cbn [bind]. rewrite He.
    reflexivity.
  - intros d pages p e Hd Hs Hp Hin He. unfold read_pdf. rewrite Hd, Hs. cbn [bind].
    rewrite Hp. cbn [bind].
    destruct (pages_text_raises m pages p e Hin He "") as (e' & ->).
    exists e'. reflexivity.
Qed.

(** ** Instances *)

Lemma preprocess_text_stripped_witness :
  Str.head (preprocess_text " (a, b) ") = Some "a"%char
  /\ Char.is_space "a" = false
  /\ Str.last None (preprocess_text " (a, b) ") = Some "b"%char
  /\ Char.is_space "b" = false.
Proof.
  split; [vm_compute; reflexivity |].
  split; [apply (proj1 (preprocess_text_stripped " (a, b) ")); vm_compute; reflexivity |].
  split; [vm_compute; reflexivity |].
  apply (proj1 (proj2 (preprocess_text_stripped " (a, b) "))). vm_compute. reflexivity.
Defined.

Lemma preprocess_text_idempotent_without_punctuation_witness :
  Str.forallb (fun c => negb (Char.is_punctuation c)) "  Python   and SQL " = true
  /\ preprocess_text (preprocess_text "  Python   and SQL ")
     = preprocess_text "  Python   and SQL ".
Proof.
  split; [vm_compute; reflexivity |].
  apply (proj1 preprocess_text_idempotent_without_punctuation). vm_compute. reflexivity.
Defined.

Lemma extracted_skills_alphabet_witness :
  "node.js" ∈ extract_skills (ResumeParser_init "Node.js, C++ and CI/CD")
  /\ Str.lower "node.js" = "node.js"
  /\ Str.forallb (fun c => negb (Char.is_punctuation c)) "node.js" = true.
Proof.
  assert (H : "node.js" ∈ extract_skills (ResumeParser_init "Node.js, C++ and CI/CD"))
    by (refine (bool_decide_unpack _ _); vm_compute; exact I).
  split; [exact H |].
  exact (proj1 extracted_skills_alphabet "Node.js, C++ and CI/CD" "node.js" H).
Defined.

Lemma dictionary_terms_found_when_present_witness :
  "sql" ∈ ALL_SKILLS
  /\ occurs_as_word "sql" (Str.lower (preprocess_text "MySQL or SQL."))
  /\ "sql" ∈ extract_skills (ResumeParser_init "MySQL or SQL.").
Proof.
  assert (H1 : "sql" ∈ ALL_SKILLS)
    by (refine (bool_decide_unpack _ _); vm_compute; exact I).
  assert (H2 : occurs_as_word "sql" (Str.lower (preprocess_text "MySQL or SQL.")))
    by (apply search_word_occurs; vm_compute; reflexivity).
  split; [exact H1 | split; [exact H2 |]].
  exact (dictionary_terms_found_when_present "MySQL or SQL." "sql" H1 H2).
Defined.

Lemma extracted_skills_shape_witness :
  "team" ∈ extract_skills (ResumeParser_init "The React team")
  /\ ("team" ∉ STOP_TOKENS)
  /\ ("team" ∈ ALL_SKILLS
      \/ ((3 <= String.length "team")%nat
          /\ exists c rest, "team" = String c rest /\ is_lower_letter c = true)).
Proof.
  assert (H : "team" ∈ extract_skills (ResumeParser_init "The React team"))
    by (refine (bool_decide_unpack _ _); vm_compute; exact I).
  split; [exact H |].
  exact (extracted_skills_shape "The React team" "team" H).
Defined.

Lemma skill_score_ignores_order_case_duplicates_witness :
  (forall s, s ∈ List.map Str.lower ["Python"; "SQL"; "python"]
             <-> s ∈ List.map Str.lower ["sql"; "PYTHON"])
  /\ score_resume_by_skills "I use Python daily" ["Python"; "SQL"; "python"]
     = score_resume_by_skills "I use Python daily" ["sql"; "PYTHON"].
Proof.
  assert (H : forall s, s ∈ List.map Str.lower ["Python"; "SQL"; "python"]
                        <-> s ∈ List.map Str.lower ["sql"; "PYTHON"]).
  { intros s.
    change (s ∈ ["python"; "sql"; "python"] <-> s ∈ ["sql"; "python"]).
    rewrite !elem_of_cons, !elem_of_nil. tauto. }
  split; [exact H |].
  exact (skill_score_ignores_order_case_duplicates "I use Python daily"
           ["Python"; "SQL"; "python"] ["sql"; "PYTHON"] H).
Defined.

Lemma blank_job_description_witness :
  "Python developer" <> "" /\ "?!  (!)" <> ""
  /\ Str.forallb is_blank_char "?!  (!)" = true
  /\ exists text_score,
      score_resume_by_text_similarity empty_vocabulary "Python developer" "?!  (!)"
        = Ok text_score
      /\ calculate_final_resume_score empty_vocabulary "Python developer" "?!  (!)" 0.5 0.5 =
         Ok {| Skill_Match_Score := 0;
               Text_Similarity_Score := text_score;
               Final_Resume_Score :=
                 number_round2
                   (number_add (PyFloat (0 * 0.5)) (number_mul text_score (PyFloat 0.5)));
               Matched_Skills := ∅;
               Job_Skills := [];
               Resume_Skills := extract_skills (ResumeParser_init "Python developer") |}.
Proof.
  split; [discriminate | split; [discriminate |]].
  split; [vm_compute; reflexivity |].
  apply (blank_job_description empty_vocabulary "Python developer" "?!  (!)" 0.5 0.5);
    [discriminate | discriminate | vm_compute; reflexivity].
Defined.

Lemma blank_resume_witness :
  "***" <> "" /\ "Python developer" <> ""
  /\ Str.forallb is_blank_char "***" = true
  /\ exists b,
      calculate_final_resume_score empty_vocabulary "***" "Python developer" 0.5 0.5 = Ok b
      /\ Matched_Skills b = ∅
      /\ Resume_Skills b = []
      /\ Job_Skills b = extract_skills (ResumeParser_init "Python developer").
Proof.
  split; [discriminate | split; [discriminate |]].
  split; [vm_compute; reflexivity |].
  apply (blank_resume empty_vocabulary "***" "Python developer" 0.5 0.5);
    [discriminate | discriminate | vm_compute; reflexivity].
Defined.

(** PyPDF2 is missing at first and is installed; the second page of the
    file cannot be read. *)
Lemma extract_text_from_pdf_raises_only_on_load_witness :
  snd (load_pdf_module (Raise (ImportError "No module named 'PyPDF2'")) (Ok 0%Z)
         (Ok sample_module)) = Ok sample_module
  /\ file_read sample_file = Ok "%PDF" /\ file_seek sample_file = Ok tt
  /\ PdfReader sample_module "%PDF" = Ok [1%nat; 2%nat]
  /\ 2%nat ∈ [1%nat; 2%nat]
  /\ page_extract_text sample_module 2%nat
     = Raise (OtherException "PdfReadError" "EOF marker not found")
  /\ exists e',
      extract_text_from_pdf (Raise (ImportError "No module named 'PyPDF2'")) (Ok 0%Z)
        (Ok sample_module) sample_file
      = (([StWarning "Installing PDF processing library..."] ++ pdf_error_events e')%list,
         Ok "").
Proof.
  assert (Hin : 2%nat ∈ [1%nat; 2%nat]) by (right; left).
  repeat (split; [first [reflexivity | exact Hin] |]).
  exact (proj2 (proj2 (proj2 (proj2
           (proj2 (extract_text_from_pdf_raises_only_on_load
                     (Raise (ImportError "No module named 'PyPDF2'")) (Ok 0%Z)
                     (Ok sample_module) sample_file)
              sample_module eq_refl))))
           "%PDF" [1%nat; 2%nat] 2%nat
           (OtherException "PdfReadError" "EOF marker not found")
           eq_refl eq_refl eq_refl Hin eq_refl).
Defined.

(** ** Matched skills in the aggregate *)

(** X16. On non-empty texts the matched skills of the bundle are exactly
    the job skills of the bundle that occur in the lowered, normalised
    resume between two word boundaries. *)
Theorem matched_skills_are_job_skills_in_resume
    (tfidf_cosine : string -> string -> result float)
    (resume_text job_text : string) (skill_weight text_weight : float) :
  resume_text <> "" -> job_text <> "" ->
  exists b,
    calculate_final_resume_score tfidf_cosine resume_text job_text
      skill_weight text_weight = Ok b
    /\ forall s,
         s ∈ Matched_Skills b
         <-> s ∈ Job_Skills b
             /\ occurs_as_word s (Str.lower (preprocess_text resume_text)).
Proof.
  intros Hr Hj.
  destruct (calculate_final_resume_score_nonempty tfidf_cosine resume_text job_text
              skill_weight text_weight Hr Hj) as (sc & m & ts & Hs & _ & ->).
  eexists. split; [reflexivity |]. cbn [Matched_Skills Job_Skills].
  apply score_resume_by_skills_matched in Hs as ->. intros s.
  rewrite elem_of_matched_in, search_word_occurs.
  rewrite (map_lower_fixed _ (fun s => extract_skills_lower s (ResumeParser_init job_text))).
  reflexivity.
Qed.

Lemma matched_skills_are_job_skills_in_resume_witness :
  "Built dashboards using Python and Pandas" <> ""
  /\ "Looking for Python, Pandas, and SQL" <> ""
  /\ exists b,
      calculate_final_resume_score empty_vocabulary
        "Built dashboards using Python and Pandas"
        "Looking for Python, Pandas, and SQL" 0.5 0.5 = Ok b
      /\ forall s,
           s ∈ Matched_Skills b
           <-> s ∈ Job_Skills b
               /\ occurs_as_word s
                    (Str.lower (preprocess_text "Built dashboards using Python and Pandas")).
Proof.
  split; [discriminate | split; [discriminate |]].
  apply (matched_skills_are_job_skills_in_resume empty_vocabulary
           "Built dashboards using Python and Pandas"
           "Looking for Python, Pandas, and SQL" 0.5 0.5); discriminate.
Defined.

(** ** What normalisation leaves untouched *)

Lemma not_blank_not_line_break (c : ascii) :
  is_blank_char c = false -> Char.is_line_break c = false.
Proof. each_character c. Qed.

Lemma kept_sub_line_breaks (s : string) :
  kept_characters (sub_class Char.is_line_break s) = kept_characters s.
Proof.
  unfold sub_class. induction s as [|c s IH]; [reflexivity |].
  cbn [Str.map kept_characters]. rewrite blank_after_line_break, IH.
  destruct (is_blank_char c) eqn:Hc; [reflexivity |].
  rewrite (not_blank_not_line_break c Hc). reflexivity.
Qed.

Lemma kept_sub_space_runs (s : string) : forall in_run,
  kept_characters (sub_space_runs in_run s) = kept_characters s.
Proof.
  induction s as [|c s IH]; intros in_run; [reflexivity |].
  cbn [sub_space_runs kept_characters]. destruct (Char.is_space c) eqn:Hc.
  - rewrite (space_is_blank c Hc). destruct in_run; [apply IH |].
    change (kept_characters (String " " (sub_space_runs true s)))
      with (kept_characters (sub_space_runs true s)). apply IH.
  - cbn [kept_characters]. rewrite IH. reflexivity.
Qed.

Lemma kept_sub_punctuation (s : string) :
  kept_characters (sub_class Char.is_punctuation s) = kept_characters s.
Proof.
  unfold sub_class. induction s as [|c s IH]; [reflexivity |].
  cbn [Str.map kept_characters]. unfold is_blank_char at 2.
  destruct (Char.is_punctuation c) eqn:Hc.
  - rewrite orb_true_r. change (is_blank_char " ") with true. cbn iota. exact IH.
  - rewrite orb_false_r. unfold is_blank_char. rewrite Hc, orb_false_r, IH.
    reflexivity.
Qed.

Lemma kept_lstrip (s : string) : kept_characters (Str.lstrip s) = kept_characters s.
Proof.
  induction s as [|c s IH]; [reflexivity |]. cbn [Str.lstrip kept_characters].
  destruct (Char.is_space c) eqn:Hc; [| reflexivity].
  rewrite (space_is_blank c Hc). exact IH.
Qed.

Lemma kept_rstrip (s : string) : kept_characters (Str.rstrip s) = kept_characters s.
Proof.
  induction s as [|c s IH]; [reflexivity |]. cbn [Str.rstrip kept_characters].
  destruct (Char.is_space c) eqn:Hc.
  - rewrite (space_is_blank c Hc). destruct (Str.rstrip s) eqn:Hr; cbn [Str.is_empty andb].
    + exact IH.
    + cbn [kept_characters]. rewrite (space_is_blank c Hc). exact IH.
  - cbn [andb kept_characters]. rewrite IH. reflexivity.
Qed.

(** X17. Normalisation touches whitespace and punctuation only: the word
    characters, full stops and hyphens of the text come out unchanged and
    in the same order. *)
Theorem preprocess_text_keeps_characters (t : string) :
  kept_characters (preprocess_text t) = kept_characters t.
Proof.
  unfold preprocess_text. destruct (Str.is_empty t) eqn:He.
  - apply is_empty_true in He as ->. reflexivity.
  - unfold Str.strip. rewrite kept_rstrip, kept_lstrip, kept_sub_punctuation,
      kept_sub_space_runs, kept_sub_line_breaks. reflexivity.
Qed.
